(** * export_functions.py: the function-list exporter, embedded and verified

    The script runs inside the disassembler host.  [export_functions] opens
    the chosen path for writing, writes a Markdown heading, a timestamp, a
    table with one row per function known to the host and a summary line,
    and returns the number of rows; [main] asks the user for the path and
    reports the result.

    The embedding follows the script statement by statement.  Python's
    exceptions, the file system, the console and the host dialogs are made
    explicit: a computation is a function from the world to an outcome
    (a value or a raised exception) and the world it leaves behind.  What
    the operating system decides (whether a path can be opened, whether a
    write or the close fails, how much of the text has reached the disk
    by then) is read from the world and from the host. *)

From Stdlib Require Import NArith Ascii String Lia.
From stdpp Require Import base option list strings gmap.

Local Open Scope N_scope.

(** ** Text: how Python renders integers and timestamps *)

Module PyText.

(** One digit as a character: [0-9] then [A-F], the alphabet of the
    format codes [d] and [X]. *)
Definition digit_to_ascii (d : N) : ascii :=
  if d <? 10 then ascii_of_N (48 + d) else ascii_of_N (55 + d).

(** The digit a character stands for, if it is one of [0-9A-F]. *)
Definition ascii_to_digit (c : ascii) : option N :=
  let n := N_of_ascii c in
  if (48 <=? n) && (n <=? 57) then Some (n - 48)
  else if (65 <=? n) && (n <=? 70) then Some (n - 55)
  else None.

(** Positional rendering, most significant digit first.  The digits are
    produced from the least significant one and pushed in front of [acc];
    [fuel] bounds the number of further digits. *)
Fixpoint to_digits (base : N) (fuel : nat) (n : N) (acc : string) : string :=
  let acc' := String (digit_to_ascii (n mod base)) acc in
  match fuel with
  | O => acc'
  | S fuel' =>
      if n / base =? 0 then acc' else to_digits base fuel' (n / base) acc'
  end.

Definition render (base n : N) : string :=
  to_digits base (N.to_nat (N.log2 n)) n EmptyString.

(** [str(n)] and [f"{n}"] for a non-negative int. *)
Definition str_int (n : N) : string := render 10 n.

(** [f"{n:X}"] for a non-negative int. *)
Definition format_X (n : N) : string := render 16 n.

(** The number a digit string denotes in [base], read left to right. *)
Fixpoint value_from (base : N) (s : string) (acc : N) : option N :=
  match s with
  | EmptyString => Some acc
  | String c s' =>
      match ascii_to_digit c with
      | Some d => if d <? base then value_from base s' (acc * base + d) else None
      | None => None
      end
  end.

Definition value_of (base : N) (s : string) : option N :=
  match s with
  | EmptyString => None
  | _ => value_from base s 0
  end.

Fixpoint all_chars (p : ascii -> bool) (s : string) : bool :=
  match s with
  | EmptyString => true
  | String c s' => p c && all_chars p s'
  end.

Definition is_upper_hex_digit (c : ascii) : bool :=
  let n := N_of_ascii c in
  ((48 <=? n) && (n <=? 57)) || ((65 <=? n) && (n <=? 70)).

Definition is_dec_digit (c : ascii) : bool :=
  let n := N_of_ascii c in (48 <=? n) && (n <=? 57).

(** A digit string has its natural width when it is ["0"] or does not
    start with the digit zero. *)
Definition natural_width (s : string) : bool :=
  match s with
  | EmptyString => false
  | String c EmptyString => true
  | String c _ => negb (Ascii.eqb c "0")
  end.

(** [datetime.datetime]: the fields the format string reads. *)
Record datetime := mk_datetime {
  year : N; month : N; day : N; hour : N; minute : N; second : N
}.

(** Zero padding of the [strftime] fields [%m %d %H %M %S] to two digits. *)
Definition pad2 (n : N) : string :=
  if n <? 10 then "0" +:+ str_int n else str_int n.

(** [t.strftime("%Y-%m-%d %H:%M:%S")].  The year is written as the C
    library of CPython on Linux writes [%Y]: in decimal, without padding
    (years from 1000 on have four digits on every platform). *)
Definition strftime (t : datetime) : string :=
  str_int (year t) +:+ "-" +:+ pad2 (month t) +:+ "-" +:+ pad2 (day t) +:+ " "
  +:+ pad2 (hour t) +:+ ":" +:+ pad2 (minute t) +:+ ":" +:+ pad2 (second t).

End PyText.

(** ** Paths: [os.path] on POSIX path names *)

Module os_path.

Definition sep : ascii := "/"%char.

Definition is_sep (c : ascii) : bool := Ascii.eqb c sep.

Fixpoint drop_while (p : ascii -> bool) (l : list ascii) : list ascii :=
  match l with
  | [] => []
  | c :: l' => if p c then drop_while p l' else l
  end.

(** [p.rstrip('/')] *)
Definition rstrip_sep (l : list ascii) : list ascii :=
  rev (drop_while is_sep (rev l)).

(** [p[:p.rfind('/') + 1]]: the path up to and including its last
    separator, empty when it has none. *)
Definition upto_last_sep (l : list ascii) : list ascii :=
  rev (drop_while (fun c => negb (is_sep c)) (rev l)).

(** [os.path.dirname(p)]: the head is stripped of its trailing separators
    unless it consists of separators only. *)
Definition dirname (p : string) : string :=
  let head := upto_last_sep (list_ascii_of_string p) in
  if forallb is_sep head then string_of_list_ascii head
  else string_of_list_ascii (rstrip_sep head).

Definition starts_with_sep (s : string) : bool :=
  match s with
  | String c _ => is_sep c
  | EmptyString => false
  end.

Definition ends_with_sep (s : string) : bool :=
  match rev (list_ascii_of_string s) with
  | c :: _ => is_sep c
  | [] => false
  end.

(** [os.path.join(a, b)] *)
Definition join (a b : string) : string :=
  if starts_with_sep b then b
  else if String.eqb a EmptyString || ends_with_sep a then a +:+ b
  else a +:+ "/" +:+ b.

End os_path.

(** ** Exceptions *)

(** The exception classes the script can meet.  All derive from
    [BaseException]; [KeyboardInterrupt] and [SystemExit] are the ones that
    do not derive from [Exception]. *)
Inductive exn_class :=
  | OSError | FileNotFoundError | PermissionError | IsADirectoryError
  | UnicodeEncodeError | ValueError | RuntimeError
  | KeyboardInterrupt | SystemExit.

Record exn := mk_exn { exn_cls : exn_class; exn_msg : string }.

(** [isinstance(e, Exception)] *)
Definition is_Exception (e : exn) : bool :=
  match exn_cls e with
  | KeyboardInterrupt | SystemExit => false
  | _ => true
  end.

(** [str(e)] *)
Definition str_exn (e : exn) : string := exn_msg e.

Inductive outcome (A : Type) :=
  | Returns (a : A)
  | Raises (e : exn).
Arguments Returns {A} a.
Arguments Raises {A} e.

(** ** The world the script acts on *)

(** A file object as [open] returns it: the path it writes to, whether it
    has been closed, how many [write] calls it has received, the chunks
    those calls handed to it (oldest first), and whether one of them
    raised.  The object buffers: what it was handed reaches the file when
    the object is closed. *)
Record file_object := mk_file_object {
  fo_path : string;
  fo_closed : bool;
  fo_writes : nat;
  fo_buffer : list string;
  fo_failed : bool
}.

(** Directories carry a flag: [true] when entries may be created in them.
    A file is kept as a sequence of chunks, oldest first; its text is their
    concatenation.  Text is kept as the bytes of its UTF-8 encoding; the
    bytes on disk are a function of that text (on some platforms the file
    object translates line ends as it writes).  [readonly] holds the paths of
    the files that may not be opened for writing.  File objects live in a
    store and are named by their position in it.  [stdout] holds the
    printed lines, [dialogs] the messages of the host's information
    dialog, oldest first.  [refusal_message] is [str(e)] of the exception
    with which [open] refuses a path: Python builds it from the error
    number, the system's wording and [repr] of the path.

    A path stands for the file it names; different spellings or links of
    one file are not related by the model, and no statement below compares
    what two different paths hold. *)
Record world := mk_world {
  dirs : gmap string bool;
  files : gmap string (list string);
  objects : list file_object;
  stdout : list string;
  dialogs : list string;
  readonly : gset string;
  refusal_message : exn_class -> string -> string
}.

Definition file_text (chunks : list string) : string :=
  fold_right String.append EmptyString chunks.

(** ** The host: what the disassembler, the clock and the user answer *)

(** [write_fault k] is the exception, if any, that the [k]-th [write] call
    on a file object raises (counting from 0): a full disk met while the
    buffer is flushed, a name that cannot be encoded, an interrupt
    delivered during the call.  [close_fault] is the exception, if any,
    that closing the file object raises when it flushes.  When a write or
    the close has raised, [disk_cut] is the number of bytes of the text
    handed to the file object that are in the file once it is closed: any
    prefix of that text may have reached the disk.  [os.getcwd()] is taken
    to return: the process has a working directory. *)
Record host := mk_host {
  get_root_filename : string;
  Functions : list N;
  get_name : N -> string;
  now : PyText.datetime;
  write_fault : nat -> option exn;
  get_input_file_path : outcome string;
  getcwd : string;
  ask_file : N -> string -> string -> string -> option string;
  close_fault : option exn;
  disk_cut : nat
}.

(** ** Computations *)

Definition py (A : Type) : Type := world -> outcome A * world.

Definition ret {A} (a : A) : py A := fun w => (Returns a, w).

Definition raise {A} (e : exn) : py A := fun w => (Raises e, w).

Definition bind {A B} (c : py A) (k : A -> py B) : py B := fun w =>
  match c w with
  | (Returns a, w1) => k a w1
  | (Raises e, w1) => (Raises e, w1)
  end.

Declare Scope py_scope.
Delimit Scope py_scope with py.
Notation "x <- c ;; k" := (bind c (fun x => k))
  (at level 100, c at next level, right associativity) : py_scope.
Notation "c ;; k" := (bind c (fun _ => k))
  (at level 100, right associativity) : py_scope.
Local Open Scope py_scope.

(** A host query that may raise. *)
Definition lift {A} (o : outcome A) : py A := fun w => (o, w).

(** [try: body / except Exception as e: handler(e)] *)
Definition try_except_Exception {A} (body : py A) (handler : exn -> py A) : py A :=
  fun w =>
    match body w with
    | (Returns a, w1) => (Returns a, w1)
    | (Raises e, w1) => if is_Exception e then handler e w1 else (Raises e, w1)
    end.

(** [try: body / except: handler] *)
Definition try_except {A} (body : py A) (handler : py A) : py A :=
  fun w =>
    match body w with
    | (Returns a, w1) => (Returns a, w1)
    | (Raises _, w1) => handler w1
    end.

(** The world with another console, dialog list, file map, object store or
    read-only set. *)
Definition set_stdout (out : list string) (w : world) : world :=
  mk_world (dirs w) (files w) (objects w) out (dialogs w)
           (readonly w) (refusal_message w).

Definition set_dialogs (dlg : list string) (w : world) : world :=
  mk_world (dirs w) (files w) (objects w) (stdout w) dlg
           (readonly w) (refusal_message w).

Definition set_files (fl : gmap string (list string)) (w : world) : world :=
  mk_world (dirs w) fl (objects w) (stdout w) (dialogs w)
           (readonly w) (refusal_message w).

Definition set_objects (ob : list file_object) (w : world) : world :=
  mk_world (dirs w) (files w) ob (stdout w) (dialogs w)
           (readonly w) (refusal_message w).

Definition set_readonly (ro : gset string) (w : world) : world :=
  mk_world (dirs w) (files w) (objects w) (stdout w) (dialogs w)
           ro (refusal_message w).

(** [print(s)] *)
Definition print (s : string) : py unit := fun w =>
  (Returns tt, set_stdout (stdout w ++ [s]) w).

(** [ida_kernwin.info(s)] *)
Definition info (s : string) : py unit := fun w =>
  (Returns tt, set_dialogs (dialogs w ++ [s]) w).

(** Why the operating system refuses to open [path] for writing, if it
    does: the directory of the path does not exist; the path names a
    directory; the file exists and is read-only; the file does not exist
    and its directory accepts no new entry.  An existing file that is not
    read-only can be opened whatever its directory allows. *)
Definition open_refusal (path : string) (w : world) : option exn_class :=
  match (dirs w !! os_path.dirname path : option bool) with
  | None => Some FileNotFoundError
  | Some accepts_entries =>
      if decide (is_Some (dirs w !! path)) then Some IsADirectoryError
      else
        match files w !! path with
        | Some _ =>
            if decide (path ∈ readonly w) then Some PermissionError else None
        | None =>
            if accepts_entries : bool then None else Some PermissionError
        end
  end.

(** The file object [open] returns. *)
Definition fresh_object (path : string) : file_object :=
  mk_file_object path false 0 [] false.

(** [open(path, 'w', encoding='utf-8')]: refused by the operating system,
    or the file is created (writable) or truncated and a fresh file object
    is returned. *)
Definition open_w (path : string) : py nat := fun w =>
  match open_refusal path w with
  | Some cls => (Raises (mk_exn cls (refusal_message w cls path)), w)
  | None =>
      (Returns (length (objects w)),
       set_readonly (readonly w ∖ {[path]})
         (set_objects (objects w ++ [fresh_object path])
            (set_files (<[path := []]> (files w)) w)))
  end.

(** [f.write(s)]: the call is counted and [s] is handed to the object's
    buffer; the call raises what the host's fault plan says for it. *)
Definition write (h : host) (f : nat) (s : string) : py unit := fun w =>
  match objects w !! f with
  | None => (Raises (mk_exn ValueError "I/O operation on closed file."), w)
  | Some o =>
      if fo_closed o
      then (Raises (mk_exn ValueError "I/O operation on closed file."), w)
      else
        match write_fault h (fo_writes o) with
        | Some e =>
            (Raises e,
             set_objects
               (<[f := mk_file_object (fo_path o) false (S (fo_writes o))
                                      (fo_buffer o ++ [s]) true]> (objects w)) w)
        | None =>
            (Returns tt,
             set_objects
               (<[f := mk_file_object (fo_path o) false (S (fo_writes o))
                                      (fo_buffer o ++ [s]) (fo_failed o)]>
                  (objects w)) w)
        end
  end.

(** The first [n] bytes of a text, or all of it when it is shorter. *)
Fixpoint cut (n : nat) (s : string) : string :=
  match n, s with
  | S n', String c s' => String c (cut n' s')
  | _, _ => EmptyString
  end.

(** What is in the file once the object is closed: everything it was
    handed when no write and not the close raised, and otherwise the prefix
    of that text that reached the disk. *)
Definition on_disk (h : host) (o : file_object) : list string :=
  match fo_failed o, close_fault h with
  | false, None => fo_buffer o
  | _, _ => [cut (disk_cut h) (file_text (fo_buffer o))]
  end.

(** [f.close()]: the buffer is flushed and the object is closed, also when
    the flush raises. *)
Definition close (h : host) (f : nat) : py unit := fun w =>
  match objects w !! f with
  | None => (Returns tt, w)
  | Some o =>
      if fo_closed o then (Returns tt, w)
      else
        let w' :=
          set_objects
            (<[f := mk_file_object (fo_path o) true (fo_writes o)
                                   (fo_buffer o) (fo_failed o)]> (objects w))
            (set_files (<[fo_path o := on_disk h o]> (files w)) w) in
        match close_fault h with
        | Some e => (Raises e, w')
        | None => (Returns tt, w')
        end
  end.

(** [with open(path, 'w', encoding='utf-8') as f: body(f)]: when [open]
    raises there is nothing to close; otherwise the file object is closed
    when the block is left, by a return or by an exception.  An exception
    raised by the close is the one that leaves the block; otherwise the
    outcome of the body does. *)
Definition with_open {A} (h : host) (path : string) (body : nat -> py A) : py A :=
  fun w =>
    match open_w path w with
    | (Raises e, w1) => (Raises e, w1)
    | (Returns f, w1) =>
        let '(r, w2) := body f w1 in
        match close h f w2 with
        | (Raises e, w3) => (Raises e, w3)
        | (Returns _, w3) => (r, w3)
        end
    end.

(** [for x in items: s = body(x, s)] *)
Fixpoint for_each {A S} (items : list A) (body : A -> S -> py S) (s : S) : py S :=
  match items with
  | [] => ret s
  | x :: rest => s' <- body x s ;; for_each rest body s'
  end.

(** [enumerate(items, start)] *)
Fixpoint enumerate {A} (items : list A) (start : N) : list (N * A) :=
  match items with
  | [] => []
  | x :: rest => (start, x) :: enumerate rest (start + 1)
  end.

(** ** The script *)

Definition LF : string := String (ascii_of_N 10) EmptyString.

Definition title_line (binary_name : string) : string :=
  "# Function List - " +:+ binary_name +:+ LF +:+ LF.

Definition time_line (current_time : string) : string :=
  "Export Time: " +:+ current_time +:+ LF +:+ LF.

Definition header_line : string :=
  "| # | Address (Hex) | Address (Dec) | Function Name |" +:+ LF.

Definition rule_line : string :=
  "|------|--------------|------------|-------|" +:+ LF.

(** [f"| {index} | `0x{func_ea:X}` | {func_ea} | `{func_name}` |\n"] *)
Definition row_line (index func_ea : N) (func_name : string) : string :=
  "| " +:+ PyText.str_int index +:+ " | `0x" +:+ PyText.format_X func_ea
  +:+ "` | " +:+ PyText.str_int func_ea +:+ " | `" +:+ func_name +:+ "` |" +:+ LF.

(** [f"\n\nTotal: {count} functions\n"] *)
Definition total_line (count : N) : string :=
  LF +:+ LF +:+ "Total: " +:+ PyText.str_int count +:+ " functions" +:+ LF.

(** The body of the [for] loop: one row is written, then [count] grows. *)
Definition write_row (h : host) (md_file : nat) (item : N * N) (count : N) : py N :=
  let '(index, func_ea) := item in
  let func_name := get_name h func_ea in
  write h md_file (row_line index func_ea func_name) ;;
  ret (count + 1).

(** The [with] block of [export_functions]; it yields the final [count]. *)
Definition write_report (h : host) (output_path : string) : py N :=
  with_open h output_path (fun md_file =>
    let binary_name := get_root_filename h in
    write h md_file (title_line binary_name) ;;
    let current_time := PyText.strftime (now h) in
    write h md_file (time_line current_time) ;;
    write h md_file header_line ;;
    write h md_file rule_line ;;
    count <- for_each (enumerate (Functions h) 1) (write_row h md_file) 0 ;;
    write h md_file (total_line count) ;;
    ret count).

(** The [try] block of [export_functions]. *)
Definition export_try (h : host) (output_path : string) : py N :=
  count <- write_report h output_path ;;
  print ("Successfully exported " +:+ PyText.str_int count
         +:+ " functions to: " +:+ output_path) ;;
  ret count.

Definition export_functions (h : host) (output_path : string) : py N :=
  try_except_Exception
    (export_try h output_path)
    (fun e => print ("Export failed: " +:+ str_exn e) ;; ret 0).

(** Python's truth value of the dialog's answer: [None] and the empty
    string are false. *)
Definition truthy (answer : option string) : option string :=
  match answer with
  | Some EmptyString => None
  | other => other
  end.

Definition main (h : host) : py unit :=
  default_dir <-
    try_except
      (path <- lift (get_input_file_path h) ;; ret (os_path.dirname path))
      (ret (getcwd h)) ;;
  let default_filename := os_path.join default_dir "exported_functions.md" in
  let output_path :=
    ask_file h 1 "*.md" "Select path to save function list" default_filename in
  match truthy output_path with
  | None => print "Export cancelled"
  | Some output_path =>
      count <- export_functions h output_path ;;
      if 0 <? count
      then info ("Successfully exported " +:+ PyText.str_int count
                 +:+ " functions to:" +:+ LF +:+ output_path)
      else ret tt
  end.

(** ** The report as the specification describes it *)

(** The default path offered by the save dialog. *)
Definition default_filename (h : host) : string :=
  match get_input_file_path h with
  | Returns path => os_path.join (os_path.dirname path) "exported_functions.md"
  | Raises _ => os_path.join (getcwd h) "exported_functions.md"
  end.

(** Heading, timestamp line and the two lines of the table header. *)
Definition preamble (h : host) : list string :=
  [ title_line (get_root_filename h);
    time_line (PyText.strftime (now h));
    header_line;
    rule_line ].

(** One data row per function, numbered from [start] in the host's order. *)
Definition rows_from (h : host) (items : list N) (start : N) : list string :=
  map (fun item : N * N => row_line item.1 item.2 (get_name h item.2))
      (enumerate items start).

Definition table_rows (h : host) : list string := rows_from h (Functions h) 1.

(** The complete document: preamble, rows, summary line. *)
Definition report (h : host) : list string :=
  preamble h ++ table_rows h ++ [total_line (N.of_nat (length (Functions h)))].

(** ** Bookkeeping for the runs *)

(** A sequence of [write] calls on one file object. *)
Fixpoint write_all (h : host) (f : nat) (chunks : list string) : py unit :=
  match chunks with
  | [] => ret tt
  | c :: rest => write h f c ;; write_all h f rest
  end.

(** The first of the [n] write calls numbered [k], [k+1], ... that the
    fault plan makes raise, as an offset from [k], with its exception. *)
Fixpoint first_fault (fault : nat -> option exn) (k n : nat) : option (nat * exn) :=
  match n with
  | O => None
  | S n' =>
      match fault k with
      | Some e => Some (O, e)
      | None =>
          match first_fault fault (S k) n' with
          | Some (i, e) => Some (S i, e)
          | None => None
          end
      end
  end.

(** The file object of a run once the [with] block is left: closed, having
    been handed the whole report, or the report up to and including the
    chunk of the first write call that raised. *)
Definition block_object (h : host) (path : string) : file_object :=
  match first_fault (write_fault h) 0 (length (report h)) with
  | None => mk_file_object path true (length (report h)) (report h) false
  | Some (i, _) =>
      mk_file_object path true (S i) (take (S i) (report h)) true
  end.

(** What leaves the [with] block once [open] has returned: the exception
    of the close if it raises, else the exception of the first write call
    that raised, else the number of functions. *)
Definition block_outcome (h : host) : outcome N :=
  match close_fault h with
  | Some e => Raises e
  | None =>
      match first_fault (write_fault h) 0 (length (report h)) with
      | Some (_, e) => Raises e
      | None => Returns (N.of_nat (length (Functions h)))
      end
  end.

(** What is at the path once the [with] block is left. *)
Definition block_disk (h : host) : list string :=
  on_disk h (block_object h EmptyString).

(** The world once [path] has been opened and the file object [o] of the
    run has been closed, leaving [chunks] in the file. *)
Definition written (path : string) (chunks : list string) (o : file_object)
    (w : world) : world :=
  set_readonly (readonly w ∖ {[path]})
    (set_objects (objects w ++ [o])
       (set_files (<[path := chunks]> (files w)) w)).

(** The world after one more line on the console. *)
Definition printed (s : string) (w : world) : world :=
  set_stdout (stdout w ++ [s]) w.

(** The world after one more information dialog. *)
Definition informed (s : string) (w : world) : world :=
  set_dialogs (dialogs w ++ [s]) w.

(** The operating system lets [path] be opened for writing. *)
Definition can_open (path : string) (w : world) : Prop :=
  open_refusal path w = None.

Definition success_message (count : N) (output_path : string) : string :=
  "Successfully exported " +:+ PyText.str_int count
  +:+ " functions to: " +:+ output_path.

Definition failure_message (e : exn) : string :=
  "Export failed: " +:+ str_exn e.

Definition dialog_message (count : N) (output_path : string) : string :=
  "Successfully exported " +:+ PyText.str_int count
  +:+ " functions to:" +:+ LF +:+ output_path.

(** ** Reading the written text *)

(** The characters that end a line: line feed and carriage return. *)
Definition is_line_end (c : ascii) : bool :=
  Ascii.eqb c (ascii_of_N 10) || Ascii.eqb c (ascii_of_N 13).

(** A text that stays on one line. *)
Definition one_line (s : string) : bool :=
  PyText.all_chars (fun c => negb (is_line_end c)) s.

(** The lines of a text as a reader of Markdown takes them: a line ends at
    a line feed, at a carriage return, or at a carriage return followed by
    a line feed. *)
Fixpoint lines (s : string) : list string :=
  match s with
  | EmptyString => [EmptyString]
  | String c s' =>
      if Ascii.eqb c (ascii_of_N 10) then EmptyString :: lines s'
      else if Ascii.eqb c (ascii_of_N 13) then
        match s' with
        | String c' s'' =>
            if Ascii.eqb c' (ascii_of_N 10) then EmptyString :: lines s''
            else EmptyString :: lines s'
        | EmptyString => EmptyString :: lines s'
        end
      else
        match lines s' with
        | l :: ls => String c l :: ls
        | [] => [String c EmptyString]
        end
  end.

(** A data row of the table: a line that starts with a bar, a space and a
    decimal digit.  The header line goes on with [#] after the space, the
    rule below it with a dash after the bar. *)
Definition is_data_row (l : string) : bool :=
  match l with
  | String a (String b (String c _)) =>
      Ascii.eqb a "|" && Ascii.eqb b " " && PyText.is_dec_digit c
  | _ => false
  end.

(** The data rows a reader finds in a text, top to bottom. *)
Definition data_rows (text : string) : list string :=
  filter (fun l => is_data_row l = true) (lines text).

(** The decimal digits a text starts with. *)
Fixpoint leading_digits (s : string) : string :=
  match s with
  | String c s' =>
      if PyText.is_dec_digit c then String c (leading_digits s') else EmptyString
  | EmptyString => EmptyString
  end.

(** The number in the index column of a data row: the digits that follow
    the bar and the space. *)
Definition row_index (l : string) : option N :=
  match l with
  | String _ (String _ rest) => PyText.value_of 10 (leading_digits rest)
  | _ => None
  end.

(** The number of line ends in a text. *)
Fixpoint count_LF (s : string) : nat :=
  match s with
  | EmptyString => O
  | String c s' =>
      ((if Ascii.eqb c (ascii_of_N 10) then 1 else 0) + count_LF s')%nat
  end.

(** The names the export writes contain no line end: the display name of
    the binary and the name of every listed function. *)
Definition names_on_one_line (h : host) : Prop :=
  one_line (get_root_filename h) = true
  /\ forall ea, In ea (Functions h) -> one_line (get_name h ea) = true.

(** The text of a data row as the format string of the loop lays it out,
    without its line end. *)
Definition row_text (index func_ea : N) (func_name : string) : string :=
  "| " +:+ PyText.str_int index +:+ " | `0x" +:+ PyText.format_X func_ea
  +:+ "` | " +:+ PyText.str_int func_ea +:+ " | `" +:+ func_name +:+ "` |".

(** The data rows of the host's functions, numbered from [start]. *)
Definition row_texts (h : host) (items : list N) (start : N) : list string :=
  map (fun item : N * N => row_text item.1 item.2 (get_name h item.2))
      (enumerate items start).


(** ** Vocabulary for further properties *)

(** A text without path separators, such as a bare file name. *)
Definition no_sep (s : string) : bool :=
  forallb (fun c => negb (os_path.is_sep c)) (list_ascii_of_string s).

(** Clock readings from the year 1000 to the end of the range of
    [datetime.datetime], with calendar and clock fields within their
    bounds. *)
Definition four_digit_year (t : PyText.datetime) : Prop :=
  1000 <= PyText.year t <= 9999
  /\ 1 <= PyText.month t <= 12
  /\ 1 <= PyText.day t <= 31
  /\ PyText.hour t < 24
  /\ PyText.minute t < 60
  /\ PyText.second t < 60.

(** A field of a timestamp: [text] has [width] characters, all of them
    decimal digits, and denotes [n]. *)
Definition field_ok (width : nat) (text : string) (n : N) : bool :=
  Nat.eqb (String.length text) width
  && PyText.all_chars PyText.is_dec_digit text
  && match PyText.value_of 10 text with
     | Some m => m =? n
     | None => false
     end.

(** ** Sample hosts and worlds *)

(** The two functions of the specification's example, in a world where
    [/home/u] accepts new entries, [/srv] does not, and an older export
    exists. *)
Definition sample_names (ea : N) : string :=
  if ea =? 4096 then "main" else "sub_" +:+ PyText.format_X ea.

Definition sample_host : host :=
  mk_host "a.out" [4096; 8208] sample_names
          (PyText.mk_datetime 2024 3 9 7 5 0)
          (fun _ => None)
          (Returns "/home/u/a.out"%string) "/tmp"
          (fun _ _ _ default => Some default)
          None 0.

(** The message of a refusal for a path that [repr] leaves as it is. *)
Definition sample_message (cls : exn_class) (path : string) : string :=
  match cls with
  | FileNotFoundError => "[Errno 2] No such file or directory: '" +:+ path +:+ "'"
  | IsADirectoryError => "[Errno 21] Is a directory: '" +:+ path +:+ "'"
  | _ => "[Errno 13] Permission denied: '" +:+ path +:+ "'"
  end.

Definition sample_world : world :=
  mk_world {[ "/home/u"%string := true; "/srv"%string := false ]}
           {[ "/home/u/exported_functions.md"%string := ["stale"%string] ]}
           [] [] [] ∅ sample_message.

(** A world where [/srv], which accepts no new entry, holds a file that
    is not read-only. *)
Definition served_world : world :=
  set_files {[ "/srv/functions.md"%string := ["kept"%string] ]} sample_world.

Definition with_faults (h : host) (fault : nat -> option exn) : host :=
  mk_host (get_root_filename h) (Functions h) (get_name h) (now h) fault
          (get_input_file_path h) (getcwd h) (ask_file h)
          (close_fault h) (disk_cut h).

Definition with_functions (h : host) (fs : list N) : host :=
  mk_host (get_root_filename h) fs (get_name h) (now h) (write_fault h)
          (get_input_file_path h) (getcwd h) (ask_file h)
          (close_fault h) (disk_cut h).

Definition with_names (h : host) (fs : list N) (names : N -> string) : host :=
  mk_host (get_root_filename h) fs names (now h) (write_fault h)
          (get_input_file_path h) (getcwd h) (ask_file h)
          (close_fault h) (disk_cut h).

Definition with_answer (h : host) (answer : option string) : host :=
  mk_host (get_root_filename h) (Functions h) (get_name h) (now h) (write_fault h)
          (get_input_file_path h) (getcwd h) (fun _ _ _ _ => answer)
          (close_fault h) (disk_cut h).

Definition with_close_fault (h : host) (e : exn) (reached : nat) : host :=
  mk_host (get_root_filename h) (Functions h) (get_name h) (now h) (write_fault h)
          (get_input_file_path h) (getcwd h) (ask_file h)
          (Some e) reached.

Definition user_interrupt : exn := mk_exn KeyboardInterrupt "User interrupted".

Definition disk_full : exn := mk_exn OSError "[Errno 28] No space left on device".

(** The write of the second row (call number 5) raises [e]. *)
Definition fault_at_second_row (e : exn) (k : nat) : option exn :=
  if Nat.eqb k 5 then Some e else None.

(** The second row's write is interrupted after the row has been handed
    to the file object; nothing is wrong with the disk, so the close
    flushes all that was handed over. *)
Definition interrupted_host : host :=
  mk_host "a.out" [4096; 8208] sample_names
          (PyText.mk_datetime 2024 3 9 7 5 0)
          (fault_at_second_row user_interrupt)
          (Returns "/home/u/a.out"%string) "/tmp"
          (fun _ _ _ default => Some default)
          None 4096.

Definition full_disk_host : host :=
  with_faults sample_host (fault_at_second_row disk_full).

Definition empty_host : host := with_functions sample_host [].

Definition cancelling_host : host := with_answer sample_host None.

Definition sample_path : string := "/home/u/exported_functions.md".

(** A host with one function whose name holds a line end followed by the
    text of a row. *)
Definition forged_name : string :=
  "a` |" +:+ LF +:+ "| 7 | `0x0` | 0 | `b".

Definition forged_host : host :=
  with_names sample_host [4096] (fun _ => forged_name).

(** A host with two functions; the name of the first holds a line end
    followed by a row that carries the index 1 again. *)
Definition repeated_index_name (ea : N) : string :=
  if ea =? 4096 then "a` |" +:+ LF +:+ "| 1 | `0x0` | 0 | `b" else "c".

Definition repeated_index_host : host :=
  with_names sample_host [4096; 8208] repeated_index_name.

(** The sample host with other names for addresses that are not listed,
    another fault plan and another user. *)
Definition renamed_names (ea : N) : string :=
  if ea =? 4096 then "main"
  else if ea =? 8208 then "sub_2010"
  else "elsewhere".

Definition renamed_host : host :=
  mk_host "a.out" [4096; 8208] renamed_names
          (PyText.mk_datetime 2024 3 9 7 5 0)
          (fun k => if Nat.eqb k 50 then Some disk_full else None)
          (Raises disk_full) "/" (fun _ _ _ _ => None)
          None 7.


(** ** Facts about the rendering of integers *)

Section Digits.

Import PyText.

Lemma digit_roundtrip (d : N) : d < 16 -> ascii_to_digit (digit_to_ascii d) = Some d.
Proof.
  intros Hd.
  destruct d as [|p]; [reflexivity|].
  do 4 (destruct p as [p|p|]; try reflexivity; try lia).
Qed.

Lemma digit_is_upper_hex (d : N) : d < 16 -> is_upper_hex_digit (digit_to_ascii d) = true.
Proof.
  intros Hd.
  destruct d as [|p]; [reflexivity|].
  do 4 (destruct p as [p|p|]; try reflexivity; try lia).
Qed.

Lemma digit_is_dec (d : N) : d < 10 -> is_dec_digit (digit_to_ascii d) = true.
Proof.
  intros Hd.
  destruct d as [|p]; [reflexivity|].
  do 4 (destruct p as [p|p|]; try reflexivity; try lia).
Qed.

Lemma digit_nonzero (d : N) : d < 16 -> d <> 0 -> Ascii.eqb (digit_to_ascii d) "0" = false.
Proof.
  intros Hd Hnz.
  destruct d as [|p]; [congruence|].
  do 4 (destruct p as [p|p|]; try reflexivity; try lia).
Qed.

Variable base : N.
Hypothesis base_lo : 1 < base.
Hypothesis base_hi : base <= 16.

Lemma div_base_bound (n : N) (fuel : nat) :
  n < base ^ N.of_nat (S (S fuel)) -> n / base < base ^ N.of_nat (S fuel).
Proof.
  intros Hn.
  apply N.Div0.div_lt_upper_bound.
  replace (N.of_nat (S (S fuel))) with (N.succ (N.of_nat (S fuel))) in Hn by lia.
  rewrite N.pow_succ_r' in Hn. exact Hn.
Qed.

Lemma small_of_fuel0 (n : N) : n < base ^ N.of_nat 1 -> n mod base = n.
Proof.
  intros Hn. change (N.of_nat 1) with 1 in Hn. rewrite N.pow_1_r in Hn.
  apply N.mod_small. exact Hn.
Qed.

Lemma small_of_div0 (n : N) : n / base = 0 -> n mod base = n.
Proof.
  intros Hq. apply N.mod_small. apply N.div_small_iff in Hq; [exact Hq | lia].
Qed.

Lemma mod_base_digit (n : N) : n mod base < 16.
Proof.
  assert (n mod base < base) by (apply N.mod_lt; lia). lia.
Qed.

(** Reading back what [to_digits] wrote in front of [acc] leaves [n] in
    the accumulator. *)
Lemma to_digits_value (fuel : nat) : forall (n : N) (acc : string),
  n < base ^ N.of_nat (S fuel) ->
  value_from base (to_digits base fuel n acc) 0 = value_from base acc n.
Proof.
  assert (Hstep : forall n acc, n mod base = n ->
            value_from base (String (digit_to_ascii (n mod base)) acc) 0
            = value_from base acc n).
  { intros n acc Hsmall. cbn [value_from].
    rewrite digit_roundtrip by apply mod_base_digit.
    assert (Hlt : n mod base < base) by (apply N.mod_lt; lia).
    apply N.ltb_lt in Hlt. rewrite Hlt. rewrite Hsmall. f_equal. }
  induction fuel as [|fuel IH]; intros n acc Hn.
  - cbn [to_digits]. apply Hstep. apply small_of_fuel0. exact Hn.
  - cbn [to_digits]. destruct (N.eqb_spec (n / base) 0) as [Hq|Hq].
    + apply Hstep. apply small_of_div0. exact Hq.
    + rewrite IH by (apply div_base_bound; exact Hn).
      cbn [value_from].
      rewrite digit_roundtrip by apply mod_base_digit.
      assert (Hlt : n mod base < base) by (apply N.mod_lt; lia).
      apply N.ltb_lt in Hlt. rewrite Hlt. f_equal.
      rewrite (N.div_mod n base) at 3 by lia. lia.
Qed.

Lemma to_digits_all_chars (p : ascii -> bool) :
  (forall d, d < base -> p (digit_to_ascii d) = true) ->
  forall (fuel : nat) (n : N) (acc : string),
    all_chars p acc = true -> all_chars p (to_digits base fuel n acc) = true.
Proof.
  intros Hp fuel.
  induction fuel as [|fuel IH]; intros n acc Hacc; cbn [to_digits].
  - cbn [all_chars]. rewrite Hp by (apply N.mod_lt; lia). exact Hacc.
  - destruct (n / base =? 0).
    + cbn [all_chars]. rewrite Hp by (apply N.mod_lt; lia). exact Hacc.
    + apply IH. cbn [all_chars]. rewrite Hp by (apply N.mod_lt; lia). exact Hacc.
Qed.

(** The first digit of a positive number is not zero. *)
Lemma to_digits_leading (fuel : nat) : forall (n : N) (acc : string),
  n <> 0 -> n < base ^ N.of_nat (S fuel) ->
  exists c s, to_digits base fuel n acc = String c s /\ Ascii.eqb c "0" = false.
Proof.
  induction fuel as [|fuel IH]; intros n acc Hnz Hn; cbn [to_digits].
  - eexists _, _. split; [reflexivity|].
    apply digit_nonzero; [apply mod_base_digit|].
    rewrite small_of_fuel0 by exact Hn. exact Hnz.
  - destruct (N.eqb_spec (n / base) 0) as [Hq|Hq].
    + eexists _, _. split; [reflexivity|].
      apply digit_nonzero; [apply mod_base_digit|].
      rewrite small_of_div0 by exact Hq. exact Hnz.
    + apply IH; [exact Hq | apply div_base_bound; exact Hn].
Qed.

Lemma render_fuel (n : N) : n < base ^ N.of_nat (S (N.to_nat (N.log2 n))).
Proof.
  replace (N.of_nat (S (N.to_nat (N.log2 n)))) with (N.succ (N.log2 n)) by lia.
  destruct (N.eq_dec n 0) as [->|Hnz].
  - apply N.neq_0_lt_0. apply N.pow_nonzero. lia.
  - assert (H2 : n < 2 ^ N.succ (N.log2 n)) by (apply N.log2_spec; lia).
    eapply N.lt_le_trans; [exact H2|].
    apply N.pow_le_mono_l. lia.
Qed.

Lemma render_nonempty (n : N) : exists c s, render base n = String c s.
Proof.
  unfold render. destruct (N.to_nat (N.log2 n)); cbn [to_digits].
  - eauto.
  - destruct (n / base =? 0); [eauto|].
    destruct n0; cbn [to_digits]; [eauto|].
    generalize (n / base) as m, (String (digit_to_ascii (n mod base)) EmptyString) as acc.
    induction n0 as [|k IH]; intros m acc.
    + destruct (m / base =? 0); cbn [to_digits]; eauto.
    + destruct (m / base =? 0); [eauto|].
      cbn [to_digits]. cbn [to_digits] in IH. apply IH.
Qed.

Lemma render_value (n : N) : value_of base (render base n) = Some n.
Proof.
  destruct (render_nonempty n) as (c & s & Hr).
  unfold value_of. rewrite Hr. rewrite <- Hr.
  unfold render. rewrite to_digits_value by apply render_fuel. reflexivity.
Qed.

Lemma render_natural_width (n : N) : natural_width (render base n) = true.
Proof.
  destruct (N.eq_dec n 0) as [->|Hnz].
  - reflexivity.
  - destruct (to_digits_leading (N.to_nat (N.log2 n)) n EmptyString Hnz (render_fuel n))
      as (c & s & Hr & Hc).
    unfold render. rewrite Hr. cbn [natural_width]. rewrite Hc.
    destruct s; reflexivity.
Qed.

End Digits.

(** ** Runs of the write block *)

Lemma enumerate_length {A} (items : list A) : forall start,
  length (enumerate items start) = length items.
Proof. induction items as [|x rest IH]; intros start; cbn; [|rewrite IH]; reflexivity. Qed.

Lemma rows_from_length (h : host) (items : list N) (start : N) :
  length (rows_from h items start) = length items.
Proof. unfold rows_from. rewrite length_map. apply enumerate_length. Qed.

Lemma enumerate_lookup {A} (items : list A) : forall start k x,
  items !! k = Some x -> enumerate items start !! k = Some (start + N.of_nat k, x).
Proof.
  induction items as [|y rest IH]; intros start k x Hk; [discriminate|].
  destruct k as [|k]; cbn in *.
  - inversion Hk; subst. f_equal. f_equal. lia.
  - rewrite (IH _ _ _ Hk). f_equal. f_equal. lia.
Qed.

Lemma rows_from_lookup (h : host) (items : list N) (start : N) (k : nat) (ea : N) :
  items !! k = Some ea ->
  rows_from h items start !! k
  = Some (row_line (start + N.of_nat k) ea (get_name h ea)).
Proof.
  intros Hk. unfold rows_from. rewrite list_lookup_fmap.
  rewrite (enumerate_lookup _ _ _ _ Hk). reflexivity.
Qed.

Lemma report_length (h : host) :
  length (report h) = (4 + length (Functions h) + 1)%nat.
Proof.
  unfold report, table_rows, preamble.
  rewrite !length_app, rows_from_length. cbn. lia.
Qed.

Lemma write_all_app (h : host) (f : nat) (a b : list string) : forall w,
  write_all h f (a ++ b) w =
  match write_all h f a w with
  | (Returns _, w1) => write_all h f b w1
  | (Raises e, w1) => (Raises e, w1)
  end.
Proof.
  induction a as [|c a IH]; intros w; cbn [write_all app].
  - reflexivity.
  - unfold bind. destruct (write h f c w) as [[[]|e] w1]; [apply IH | reflexivity].
Qed.

(** The loop writes the rows one by one and counts them. *)
Lemma for_each_write_row (h : host) (f : nat) (items : list N) :
  forall (start count : N) (w : world),
    for_each (enumerate items start) (write_row h f) count w =
    match write_all h f (rows_from h items start) w with
    | (Returns _, w1) => (Returns (count + N.of_nat (length items)), w1)
    | (Raises e, w1) => (Raises e, w1)
    end.
Proof.
  induction items as [|ea rest IH]; intros start count w.
  - cbn. unfold ret. do 2 f_equal. lia.
  - cbn [enumerate for_each rows_from map write_all length].
    unfold write_row at 1. cbn [fst snd]. unfold bind.
    destruct (write h f (row_line start ea (get_name h ea)) w) as [[[]|e] w1];
      [|reflexivity].
    unfold ret at 1. rewrite IH. fold (rows_from h rest (start + 1)).
    destruct (write_all h f (rows_from h rest (start + 1)) w1) as [[[]|e] w2];
      [|reflexivity].
    do 2 f_equal. lia.
Qed.

(** What a sequence of writes does to an open file object: every chunk is
    handed to it up to and including the chunk of the first write call that
    raises. *)
Lemma write_all_run (h : host) (f : nat) (path : string) (chunks : list string) :
  forall (w : world) (k : nat) (buf : list string) (failed : bool),
    objects w !! f = Some (mk_file_object path false k buf failed) ->
    write_all h f chunks w =
    match first_fault (write_fault h) k (length chunks) with
    | None =>
        (Returns tt,
         set_objects
           (<[f := mk_file_object path false (k + length chunks)
                                  (buf ++ chunks) failed]> (objects w)) w)
    | Some (i, e) =>
        (Raises e,
         set_objects
           (<[f := mk_file_object path false (k + S i)
                                  (buf ++ take (S i) chunks) true]> (objects w)) w)
    end.
Proof.
  induction chunks as [|c rest IH]; intros w k buf failed Hobj.
  - cbn. unfold ret. f_equal. destruct w as [d fl ob so di ro rm]; cbn in *.
    rewrite app_nil_r, Nat.add_0_r, (list_insert_id _ _ _ Hobj). reflexivity.
  - assert (Hlen : (f < length (objects w))%nat) by (eapply lookup_lt_Some; eauto).
    cbn [write_all length first_fault]. unfold bind, write at 1.
    rewrite Hobj. cbn [fo_closed fo_path fo_writes fo_buffer fo_failed].
    destruct (write_fault h k) as [e|].
    + cbn [take]. do 4 f_equal. lia.
    + erewrite IH; cycle 1.
      * cbn [objects set_objects]. apply list_lookup_insert_eq. exact Hlen.
      * destruct (first_fault (write_fault h) (S k) (length rest)) as [[i e]|];
          unfold set_objects; cbn [dirs files objects stdout dialogs readonly
                                   refusal_message];
          rewrite list_insert_insert_eq; cbn [take]; rewrite <- app_assoc;
          cbn [app]; do 4 f_equal; lia.
Qed.

Lemma on_disk_path (h : host) (p q : string) (closed closed' : bool)
    (k k' : nat) (buf : list string) (failed : bool) :
  on_disk h (mk_file_object p closed k buf failed)
  = on_disk h (mk_file_object q closed' k' buf failed).
Proof. reflexivity. Qed.

(** The write block once [open] has returned: its outcome, the file and the
    closed file object are those the host's fault plan gives. *)
Lemma write_report_run (h : host) (path : string) (w : world) :
  can_open path w ->
  write_report h path w
  = (block_outcome h, written path (block_disk h) (block_object h path) w).
Proof.
  intros Hopen. unfold can_open in Hopen.
  set (f := length (objects w)).
  set (w1 := set_readonly (readonly w ∖ {[path]})
               (set_objects (objects w ++ [fresh_object path])
                  (set_files (<[path := []]> (files w)) w))).
  assert (Hobj : objects w1 !! f = Some (mk_file_object path false 0 [] false)).
  { cbn. apply list_lookup_middle. reflexivity. }
  assert (Hbody :
    (write h f (title_line (get_root_filename h)) ;;
     write h f (time_line (PyText.strftime (now h))) ;;
     write h f header_line ;;
     write h f rule_line ;;
     count <- for_each (enumerate (Functions h) 1) (write_row h f) 0 ;;
     write h f (total_line count) ;;
     ret count) w1
    = match write_all h f (report h) w1 with
      | (Returns _, w2) => (Returns (N.of_nat (length (Functions h))), w2)
      | (Raises e, w2) => (Raises e, w2)
      end).
  { unfold report, preamble, table_rows. cbn [app write_all]. unfold bind.
    destruct (write h f (title_line (get_root_filename h)) w1) as [[[]|e] w2];
      [|reflexivity].
    destruct (write h f (time_line (PyText.strftime (now h))) w2) as [[[]|e] w3];
      [|reflexivity].
    destruct (write h f header_line w3) as [[[]|e] w4]; [|reflexivity].
    destruct (write h f rule_line w4) as [[[]|e] w5]; [|reflexivity].
    rewrite for_each_write_row, write_all_app.
    destruct (write_all h f (rows_from h (Functions h) 1) w5) as [[[]|e] w6];
      [|reflexivity].
    cbn [write_all]. unfold bind. rewrite N.add_0_l.
    destruct (write h f (total_line (N.of_nat (length (Functions h)))) w6)
      as [[[]|e] w7]; reflexivity. }
  unfold write_report, with_open, open_w. rewrite Hopen.
  fold f. fold w1. cbv beta zeta. rewrite Hbody.
  rewrite (write_all_run h f path (report h) w1 0 [] false Hobj).
  assert (Hlen : (f < length (objects w1))%nat) by (eapply lookup_lt_Some; eauto).
  unfold block_outcome, block_disk, block_object.
  destruct (first_fault (write_fault h) 0 (length (report h))) as [[i e]|];
    unfold close; cbn [objects set_objects];
    rewrite list_lookup_insert_eq by exact Hlen;
    cbn [fo_closed fo_path fo_writes fo_buffer fo_failed];
    (destruct (close_fault h) as [e'|] eqn:Hclose);
    unfold written, set_objects, set_files, set_readonly; subst w1;
    cbn [dirs files objects stdout dialogs readonly refusal_message
         set_objects set_files set_readonly app Nat.add];
    rewrite insert_insert_eq, list_insert_insert_eq;
    subst f; rewrite insert_app_r_alt by lia; rewrite Nat.sub_diag;
    unfold on_disk; cbn [fo_failed fo_buffer]; rewrite ?Hclose; reflexivity.
Qed.

(** When [open] is refused nothing is touched and its exception, an
    instance of [Exception], leaves the write block. *)
Lemma write_report_refused (h : host) (path : string) (w : world) (cls : exn_class) :
  open_refusal path w = Some cls ->
  write_report h path w = (Raises (mk_exn cls (refusal_message w cls path)), w)
  /\ is_Exception (mk_exn cls (refusal_message w cls path)) = true.
Proof.
  intros Hrefused. split.
  - unfold write_report, with_open, open_w. rewrite Hrefused. reflexivity.
  - unfold open_refusal in Hrefused.
    destruct (dirs w !! os_path.dirname path : option bool) as [[|]|];
      repeat case_decide; destruct (files w !! path);
      repeat case_decide; inversion Hrefused; reflexivity.
Qed.

(** ** Runs of [export_functions] *)

(** The two ways a write block can go, by the answer of [open]. *)
Lemma write_report_cases (h : host) (path : string) (w : world) :
  (can_open path w
   /\ write_report h path w
      = (block_outcome h, written path (block_disk h) (block_object h path) w))
  \/ (exists cls,
        open_refusal path w = Some cls
        /\ write_report h path w
           = (Raises (mk_exn cls (refusal_message w cls path)), w)
        /\ is_Exception (mk_exn cls (refusal_message w cls path)) = true).
Proof.
  destruct (open_refusal path w) as [cls|] eqn:Hrefusal.
  - right. exists cls. split; [reflexivity|].
    apply write_report_refused. exact Hrefusal.
  - left. split; [exact Hrefusal | apply write_report_run; exact Hrefusal].
Qed.

Tactic Notation "open_cases" constr(h) constr(path) constr(w)
    "as" ident(Hopen) ident(Hrun) ident(cls) ident(Hexc) :=
  destruct (write_report_cases h path w)
    as [[Hopen Hrun]|(cls & Hopen & Hrun & Hexc)].

Lemma export_try_run (h : host) (path : string) (w : world) :
  export_try h path w =
  match write_report h path w with
  | (Returns c, w1) => (Returns c, printed (success_message c path) w1)
  | (Raises e, w1) => (Raises e, w1)
  end.
Proof.
  unfold export_try, bind. destruct (write_report h path w) as [[c|e] w1]; reflexivity.
Qed.

Lemma export_functions_run (h : host) (path : string) (w : world) :
  export_functions h path w =
  match write_report h path w with
  | (Returns c, w1) => (Returns c, printed (success_message c path) w1)
  | (Raises e, w1) =>
      if is_Exception e then (Returns 0, printed (failure_message e) w1)
      else (Raises e, w1)
  end.
Proof.
  unfold export_functions, try_except_Exception. rewrite export_try_run.
  destruct (write_report h path w) as [[c|e] w1]; [reflexivity|].
  destruct (is_Exception e); reflexivity.
Qed.

(** A write block that returns has met no fault: the whole report is in
    the file. *)
Lemma block_outcome_returns (h : host) (c : N) :
  block_outcome h = Returns c ->
  c = N.of_nat (length (Functions h)) /\ block_disk h = report h.
Proof.
  unfold block_outcome, block_disk, block_object, on_disk.
  destruct (close_fault h) as [e|]; [discriminate|].
  destruct (first_fault (write_fault h) 0 (length (report h))) as [[i e]|];
    [discriminate|].
  intros Heq. inversion Heq. split; reflexivity.
Qed.

Lemma block_object_closed (h : host) (path : string) :
  fo_path (block_object h path) = path /\ fo_closed (block_object h path) = true.
Proof.
  unfold block_object.
  destruct (first_fault (write_fault h) 0 (length (report h))) as [[i e]|];
    split; reflexivity.
Qed.

(** A [try] block that returns has opened the file and written all of the
    report. *)
Lemma export_try_returns (h : host) (path : string) (w : world) (c : N) :
  fst (export_try h path w) = Returns c ->
  can_open path w
  /\ block_outcome h = Returns c
  /\ c = N.of_nat (length (Functions h))
  /\ write_report h path w
     = (Returns c, written path (report h) (block_object h path) w).
Proof.
  rewrite export_try_run. intros Hret.
  open_cases h path w as Hopen Hrun cls Hexc; rewrite Hrun in *.
  - destruct (block_outcome h) as [c'|e] eqn:Hblock; cbn in Hret; [|discriminate].
    inversion Hret; subst c'.
    destruct (block_outcome_returns h c Hblock) as [Hc Hdisk].
    rewrite Hdisk. auto.
  - discriminate.
Qed.

(** A [try] block that raises has printed nothing. *)
Lemma export_try_raises (h : host) (path : string) (w : world) (e : exn) :
  fst (export_try h path w) = Raises e ->
  exists w1, write_report h path w = (Raises e, w1) /\ stdout w1 = stdout w.
Proof.
  rewrite export_try_run. intros Hret.
  open_cases h path w as Hopen Hrun cls Hexc; rewrite Hrun in *.
  - destruct (block_outcome h) as [c'|e']; cbn in Hret; [discriminate|].
    inversion Hret; subst. eauto.
  - cbn in Hret. inversion Hret; subst. eauto.
Qed.

(** [export_functions] shows no dialog and changes no directory. *)
Lemma export_functions_keeps (h : host) (path : string) (w : world) :
  dialogs (snd (export_functions h path w)) = dialogs w
  /\ dirs (snd (export_functions h path w)) = dirs w.
Proof.
  rewrite export_functions_run.
  open_cases h path w as Hopen Hrun cls Hexc; rewrite Hrun.
  - destruct (block_outcome h) as [c|e]; [|destruct (is_Exception e)]; cbn; auto.
  - rewrite Hexc. cbn; auto.
Qed.

(** The value returned by a run that opened the file, and what is then at
    the path, are those of the write block. *)
Lemma export_functions_opened (h : host) (path : string) (w : world) :
  can_open path w ->
  fst (export_functions h path w)
  = match block_outcome h with
    | Returns c => Returns c
    | Raises e => if is_Exception e then Returns 0 else Raises e
    end
  /\ files (snd (export_functions h path w)) !! path = Some (block_disk h).
Proof.
  intros Hopen.
  rewrite export_functions_run, (write_report_run h path w Hopen).
  destruct (block_outcome h) as [c|e]; [|destruct (is_Exception e)];
    cbn; rewrite lookup_insert_eq; auto.
Qed.



Lemma main_run (h : host) (w : world) :
  main h w =
  match truthy (ask_file h 1 "*.md" "Select path to save function list"
                         (default_filename h)) with
  | None => (Returns tt, printed "Export cancelled" w)
  | Some path =>
      match export_functions h path w with
      | (Returns count, w1) =>
          if 0 <? count
          then (Returns tt, informed (dialog_message count path) w1)
          else (Returns tt, w1)
      | (Raises e, w1) => (Raises e, w1)
      end
  end.
Proof.
  unfold main, default_filename, bind at 1, try_except, bind at 1, lift.
  destruct (get_input_file_path h) as [ipath|e]; cbn [ret];
    (destruct (truthy _) as [path|]; [|reflexivity]);
    unfold bind;
    (destruct (export_functions h path w) as [[count|e'] w1]; [|reflexivity]);
    destruct (0 <? count); reflexivity.
Qed.

(** ** Lines of the written file *)

Lemma append_assoc (a b c : string) : (a +:+ b) +:+ c = a +:+ (b +:+ c).
Proof.
  induction a as [|x a IH]; [reflexivity | exact (f_equal (String x) IH)].
Qed.

Lemma append_nil_r (a : string) : a +:+ EmptyString = a.
Proof.
  induction a as [|x a IH]; [reflexivity | exact (f_equal (String x) IH)].
Qed.

Lemma file_text_app (a b : list string) :
  file_text (a ++ b) = file_text a +:+ file_text b.
Proof.
  induction a as [|c a IH]; [reflexivity|].
  change (c +:+ file_text (a ++ b) = (c +:+ file_text a) +:+ file_text b).
  rewrite IH, append_assoc. reflexivity.
Qed.

Lemma count_LF_app (a b : string) :
  count_LF (a +:+ b) = (count_LF a + count_LF b)%nat.
Proof.
  induction a as [|c a IH]; simpl; [reflexivity|].
  rewrite IH. lia.
Qed.

Lemma count_LF_all_chars (p : ascii -> bool) (s : string) :
  p (ascii_of_N 10) = false ->
  PyText.all_chars p s = true -> count_LF s = O.
Proof.
  intros Hp. induction s as [|c s IH]; cbn [PyText.all_chars count_LF]; [reflexivity|].
  intros Hall. apply andb_prop in Hall. destruct Hall as [Hc Hs].
  rewrite (IH Hs). destruct (Ascii.eqb_spec c (ascii_of_N 10)) as [->|_];
    [congruence | reflexivity].
Qed.

Lemma str_int_digits (n : N) :
  PyText.all_chars PyText.is_dec_digit (PyText.str_int n) = true.
Proof.
  unfold PyText.str_int, PyText.render.
  apply to_digits_all_chars; try lia; [|reflexivity].
  intros d Hd. apply digit_is_dec. exact Hd.
Qed.

Lemma format_X_digits (n : N) :
  PyText.all_chars PyText.is_upper_hex_digit (PyText.format_X n) = true.
Proof.
  unfold PyText.format_X, PyText.render.
  apply to_digits_all_chars; try lia; [|reflexivity].
  intros d Hd. apply digit_is_upper_hex. exact Hd.
Qed.

Lemma count_LF_str_int (n : N) : count_LF (PyText.str_int n) = O.
Proof.
  apply (count_LF_all_chars PyText.is_dec_digit);
    [reflexivity | apply str_int_digits].
Qed.

Lemma count_LF_format_X (n : N) : count_LF (PyText.format_X n) = O.
Proof.
  apply (count_LF_all_chars PyText.is_upper_hex_digit);
    [reflexivity | apply format_X_digits].
Qed.




Lemma count_LF_row_text (index func_ea : N) (func_name : string) :
  count_LF (row_text index func_ea func_name) = count_LF func_name.
Proof.
  unfold row_text.
  rewrite !count_LF_app, !count_LF_str_int, count_LF_format_X.
  cbn. lia.
Qed.



Lemma one_line_app (a b : string) :
  one_line (a +:+ b) = one_line a && one_line b.
Proof.
  unfold one_line. induction a as [|c a IH]; [reflexivity|].
  change (String c a +:+ b) with (String c (a +:+ b)).
  cbn [PyText.all_chars]. rewrite IH, andb_assoc. reflexivity.
Qed.

Lemma one_line_all_chars (p : ascii -> bool) (s : string) :
  p (ascii_of_N 10) = false -> p (ascii_of_N 13) = false ->
  PyText.all_chars p s = true -> one_line s = true.
Proof.
  intros Hlf Hcr. unfold one_line.
  induction s as [|c s IH]; cbn [PyText.all_chars]; [reflexivity|].
  intros Hall. apply andb_prop in Hall. destruct Hall as [Hc Hs].
  rewrite (IH Hs), andb_true_r. unfold is_line_end.
  destruct (Ascii.eqb_spec c (ascii_of_N 10)) as [->|_]; [congruence|].
  destruct (Ascii.eqb_spec c (ascii_of_N 13)) as [->|_]; [congruence|].
  reflexivity.
Qed.

Lemma one_line_str_int (n : N) : one_line (PyText.str_int n) = true.
Proof.
  apply (one_line_all_chars PyText.is_dec_digit);
    [reflexivity | reflexivity | apply str_int_digits].
Qed.

Lemma one_line_format_X (n : N) : one_line (PyText.format_X n) = true.
Proof.
  apply (one_line_all_chars PyText.is_upper_hex_digit);
    [reflexivity | reflexivity | apply format_X_digits].
Qed.

Lemma one_line_pad2 (n : N) : one_line (PyText.pad2 n) = true.
Proof.
  unfold PyText.pad2. destruct (n <? 10);
    rewrite ?one_line_app, one_line_str_int; reflexivity.
Qed.

Lemma one_line_strftime (t : PyText.datetime) : one_line (PyText.strftime t) = true.
Proof.
  unfold PyText.strftime.
  rewrite !one_line_app, one_line_str_int, !one_line_pad2. reflexivity.
Qed.

Lemma one_line_row_text (index func_ea : N) (func_name : string) :
  one_line func_name = true ->
  one_line (row_text index func_ea func_name) = true.
Proof.
  intros Hname. unfold row_text.
  rewrite !one_line_app, !one_line_str_int, one_line_format_X, Hname.
  reflexivity.
Qed.

(** A text that stays on one line, followed by a line feed, is a line of
    the text. *)
Lemma lines_line (a rest : string) :
  one_line a = true ->
  lines (a +:+ String (ascii_of_N 10) rest) = a :: lines rest.
Proof.
  unfold one_line, is_line_end.
  induction a as [|c a IH]; intros Hone.
  - reflexivity.
  - cbn [PyText.all_chars] in Hone. apply andb_prop in Hone.
    destruct Hone as [Hc Ha].
    change (String c a +:+ String (ascii_of_N 10) rest)
      with (String c (a +:+ String (ascii_of_N 10) rest)).
    cbn [lines].
    destruct (Ascii.eqb c (ascii_of_N 10)); [discriminate|].
    destruct (Ascii.eqb c (ascii_of_N 13)); [discriminate|].
    rewrite IH by exact Ha. reflexivity.
Qed.

Lemma row_line_text (index func_ea : N) (func_name : string) (rest : string) :
  row_line index func_ea func_name +:+ rest
  = row_text index func_ea func_name +:+ String (ascii_of_N 10) rest.
Proof.
  unfold row_line, row_text. rewrite !append_assoc. reflexivity.
Qed.

Lemma row_texts_length (h : host) (items : list N) (start : N) :
  length (row_texts h items start) = length items.
Proof. unfold row_texts. rewrite length_map. apply enumerate_length. Qed.

(** The lines of the rows, in front of any rest. *)
Lemma lines_rows (h : host) (items : list N) :
  (forall ea, In ea items -> one_line (get_name h ea) = true) ->
  forall (start : N) (rest : string),
    lines (file_text (rows_from h items start) +:+ rest)
    = row_texts h items start ++ lines rest.
Proof.
  induction items as [|ea more IH]; intros Hnames start rest; [reflexivity|].
  cbn [rows_from row_texts enumerate map fst snd app].
  fold (rows_from h more (start + 1)). fold (row_texts h more (start + 1)).
  change (file_text (row_line start ea (get_name h ea) :: rows_from h more (start + 1)))
    with (row_line start ea (get_name h ea) +:+ file_text (rows_from h more (start + 1))).
  rewrite append_assoc, row_line_text.
  rewrite lines_line
    by (apply one_line_row_text; apply Hnames; left; reflexivity).
  rewrite IH by (intros ea' Hin; apply Hnames; right; exact Hin).
  reflexivity.
Qed.

(** The lines of a complete report whose names hold no line end: heading,
    timestamp, the two header lines, one line per function, the summary,
    and the empty lines between them. *)
Lemma lines_report (h : host) :
  names_on_one_line h ->
  lines (file_text (report h))
  = [ "# Function List - " +:+ get_root_filename h;
      EmptyString;
      "Export Time: " +:+ PyText.strftime (now h);
      EmptyString;
      "| # | Address (Hex) | Address (Dec) | Function Name |"%string;
      "|------|--------------|------------|-------|"%string ]
    ++ row_texts h (Functions h) 1
    ++ [ EmptyString; EmptyString;
         "Total: " +:+ PyText.str_int (N.of_nat (length (Functions h)))
         +:+ " functions";
         EmptyString ].
Proof.
  intros [Hbinary Hnames].
  unfold report, preamble, table_rows.
  change (file_text ([title_line (get_root_filename h);
                      time_line (PyText.strftime (now h)); header_line; rule_line]
                     ++ rows_from h (Functions h) 1
                     ++ [total_line (N.of_nat (length (Functions h)))]))
    with (title_line (get_root_filename h)
          +:+ time_line (PyText.strftime (now h))
          +:+ header_line +:+ rule_line
          +:+ file_text (rows_from h (Functions h) 1
                         ++ [total_line (N.of_nat (length (Functions h)))])).
  rewrite file_text_app.
  set (rows := file_text (rows_from h (Functions h) 1)).
  set (n := PyText.str_int (N.of_nat (length (Functions h)))).
  assert (Hshape :
    title_line (get_root_filename h)
    +:+ time_line (PyText.strftime (now h))
    +:+ header_line +:+ rule_line
    +:+ rows +:+ file_text [total_line (N.of_nat (length (Functions h)))]
    = ("# Function List - " +:+ get_root_filename h)
      +:+ String (ascii_of_N 10) (EmptyString
      +:+ String (ascii_of_N 10) (("Export Time: " +:+ PyText.strftime (now h))
      +:+ String (ascii_of_N 10) (EmptyString
      +:+ String (ascii_of_N 10) ("| # | Address (Hex) | Address (Dec) | Function Name |"
      +:+ String (ascii_of_N 10) ("|------|--------------|------------|-------|"
      +:+ String (ascii_of_N 10) (rows
      +:+ (EmptyString
      +:+ String (ascii_of_N 10) (EmptyString
      +:+ String (ascii_of_N 10) (("Total: " +:+ n +:+ " functions")
      +:+ String (ascii_of_N 10) EmptyString)))))))))).
  { unfold title_line, time_line, header_line, rule_line, total_line, file_text.
    cbn [fold_right]. fold n. rewrite !append_assoc. reflexivity. }
  rewrite Hshape. clear Hshape.
  rewrite lines_line
    by (rewrite one_line_app, Hbinary; reflexivity).
  rewrite lines_line by reflexivity.
  rewrite lines_line
    by (rewrite one_line_app, one_line_strftime; reflexivity).
  rewrite lines_line by reflexivity.
  rewrite lines_line by reflexivity.
  rewrite lines_line by reflexivity.
  subst rows. rewrite (lines_rows h (Functions h) Hnames 1).
  rewrite lines_line by reflexivity.
  rewrite lines_line by reflexivity.
  rewrite lines_line
    by (subst n; rewrite !one_line_app, one_line_str_int; reflexivity).
  reflexivity.
Qed.

Lemma str_int_head (n : N) :
  exists c s, PyText.str_int n = String c s /\ PyText.is_dec_digit c = true.
Proof.
  pose proof (str_int_digits n) as Hdigits.
  destruct (render_nonempty 10 n) as (c & s & Heq).
  unfold PyText.str_int in *. rewrite Heq in *.
  cbn [PyText.all_chars] in Hdigits. apply andb_prop in Hdigits.
  exists c, s. split; [reflexivity | apply Hdigits].
Qed.

Lemma row_text_is_data_row (index func_ea : N) (func_name : string) :
  is_data_row (row_text index func_ea func_name) = true.
Proof.
  unfold row_text. destruct (str_int_head index) as (c & s & -> & Hc).
  cbn. exact Hc.
Qed.

Lemma leading_digits_run (a : string) (c : ascii) (r : string) :
  PyText.all_chars PyText.is_dec_digit a = true ->
  PyText.is_dec_digit c = false ->
  leading_digits (a +:+ String c r) = a.
Proof.
  intros Ha Hc. induction a as [|x a IH].
  - cbn [String.append leading_digits]. simpl. rewrite Hc. reflexivity.
  - cbn [PyText.all_chars] in Ha. apply andb_prop in Ha. destruct Ha as [Hx Ha].
    change (leading_digits (String x (a +:+ String c r)) = String x a).
    cbn [leading_digits]. rewrite Hx, (IH Ha). reflexivity.
Qed.

Lemma row_text_index (index func_ea : N) (func_name : string) :
  row_index (row_text index func_ea func_name) = Some index.
Proof.
  assert (Hshape :
    row_text index func_ea func_name
    = String "|" (String " " (PyText.str_int index
        +:+ String " " ("| `0x" +:+ PyText.format_X func_ea +:+ "` | "
                        +:+ PyText.str_int func_ea +:+ " | `" +:+ func_name
                        +:+ "` |"))))
    by reflexivity.
  rewrite Hshape. unfold row_index.
  rewrite leading_digits_run; [|apply str_int_digits|reflexivity].
  unfold PyText.str_int. apply render_value; lia.
Qed.

Lemma row_texts_data_rows (h : host) (items : list N) : forall start,
  filter (fun l => is_data_row l = true) (row_texts h items start)
  = row_texts h items start.
Proof.
  induction items as [|ea more IH]; intros start; [reflexivity|].
  cbn [row_texts enumerate map fst snd].
  fold (row_texts h more (start + 1)).
  rewrite filter_cons, decide_True by apply row_text_is_data_row.
  rewrite IH. reflexivity.
Qed.

(** The data rows of a complete report whose names hold no line end are
    the rows of the functions. *)
Lemma data_rows_report (h : host) :
  names_on_one_line h ->
  data_rows (file_text (report h)) = row_texts h (Functions h) 1.
Proof.
  intros Hnames. unfold data_rows. rewrite (lines_report h Hnames).
  rewrite !filter_app, row_texts_data_rows.
  set (rows := row_texts h (Functions h) 1).
  assert (Htitle : is_data_row ("# Function List - " +:+ get_root_filename h) = false)
    by reflexivity.
  assert (Htime : is_data_row ("Export Time: " +:+ PyText.strftime (now h)) = false)
    by reflexivity.
  assert (Htotal : is_data_row ("Total: " +:+ PyText.str_int (N.of_nat (length (Functions h)))
                                +:+ " functions") = false)
    by reflexivity.
  repeat (rewrite filter_cons, decide_False
            by (rewrite ?Htitle, ?Htime, ?Htotal; cbn; discriminate)).
  rewrite filter_nil. cbn [app]. rewrite app_nil_r. reflexivity.
Qed.

Lemma row_texts_lookup (h : host) (items : list N) (start : N) (k : nat) (ea : N) :
  items !! k = Some ea ->
  row_texts h items start !! k
  = Some (row_text (start + N.of_nat k) ea (get_name h ea)).
Proof.
  intros Hk. unfold row_texts. rewrite list_lookup_fmap.
  rewrite (enumerate_lookup _ _ _ _ Hk). reflexivity.
Qed.

(** ** The claims *)

Lemma cut_prefix (n : nat) (s : string) : exists rest, s = cut n s +:+ rest.
Proof.
  revert s. induction n as [|n IH]; intros s.
  - exists s. destruct s; reflexivity.
  - destruct s as [|c s]; [exists EmptyString; reflexivity|].
    destruct (IH s) as [rest Hrest]. exists rest.
    cbn [cut]. exact (f_equal (String c) Hrest).
Qed.



(** C1, as amended.  For every list of N functions whose names, like the
    display name of the binary, contain no line end (line feed or carriage
    return), a run of
    [export_functions] whose [try] block raises nothing returns N and
    leaves at the path a text with exactly N data rows and the summary line
    "Total: N functions". *)
Theorem export_functions_writes_all_rows
    (h : host) (path : string) (w : world) (c : N) :
  one_line (get_root_filename h) = true ->
  (forall ea, In ea (Functions h) -> one_line (get_name h ea) = true) ->
  fst (export_try h path w) = Returns c ->
  let n := length (Functions h) in
  let w' := snd (export_functions h path w) in
  fst (export_functions h path w) = Returns (N.of_nat n)
  /\ exists chunks : list string,
       files w' !! path = Some chunks
       /\ length (data_rows (file_text chunks)) = n
       /\ In ("Total: " +:+ PyText.str_int (N.of_nat n) +:+ " functions")
             (lines (file_text chunks)).
Proof.
  intros Hbinary Hnames Hret n w'. subst n w'.
  destruct (export_try_returns h path w c Hret) as (Hopen & Hblock & Hc & _).
  destruct (block_outcome_returns h c Hblock) as [_ Hdisk].
  destruct (export_functions_opened h path w Hopen) as [Hvalue Hfile].
  rewrite Hblock in Hvalue. rewrite Hdisk in Hfile.
  split; [congruence|].
  exists (report h). split; [exact Hfile|]. split.
  - rewrite (data_rows_report h (conj Hbinary Hnames)). apply row_texts_length.
  - rewrite (lines_report h (conj Hbinary Hnames)).
    apply in_or_app. right. apply in_or_app. right. cbn. auto.
Qed.

Lemma export_functions_writes_all_rows_witness :
  one_line (get_root_filename sample_host) = true
  /\ fst (export_try sample_host sample_path sample_world) = Returns 2
  /\ fst (export_functions sample_host sample_path sample_world) = Returns 2
  /\ exists chunks : list string,
       files (snd (export_functions sample_host sample_path sample_world))
         !! sample_path = Some chunks
       /\ length (data_rows (file_text chunks)) = 2%nat
       /\ In ("Total: " +:+ PyText.str_int 2 +:+ " functions")
             (lines (file_text chunks)).
Proof.
  split; [reflexivity|]. split; [vm_compute; reflexivity|].
  apply (export_functions_writes_all_rows sample_host sample_path sample_world 2).
  - reflexivity.
  - intros ea [<-|[<-|[]]]; reflexivity.
  - vm_compute; reflexivity.
Defined.

(** C1, as stated, fails: the host lists one function, whose name holds a
    line end followed by the text of a row.  The run goes through and
    returns 1, the summary line reads "Total: 1 functions", and the text
    at the path has two data rows. *)
Lemma export_shows_forged_row :
  length (Functions forged_host) = 1%nat
  /\ fst (export_try forged_host sample_path sample_world) = Returns 1
  /\ fst (export_functions forged_host sample_path sample_world) = Returns 1
  /\ exists chunks : list string,
       files (snd (export_functions forged_host sample_path sample_world))
         !! sample_path = Some chunks
       /\ In "Total: 1 functions"%string (lines (file_text chunks))
       /\ length (data_rows (file_text chunks)) = 2%nat.
Proof.
  split; [reflexivity|]. split; [vm_compute; reflexivity|].
  split; [vm_compute; reflexivity|].
  eexists. split; [vm_compute; reflexivity|].
  split; [vm_compute; tauto | vm_compute; reflexivity].
Qed.

(** C2, as amended.  When the [try] block of [export_functions] raises an
    exception that is an instance of [Exception] (from [open], from a
    [write]), the exception is caught, the line "Export failed: " followed
    by its message is printed, and the function returns 0.  An exception
    that is not an instance of [Exception] ([KeyboardInterrupt],
    [SystemExit]) is not caught: it reaches the caller and nothing is
    printed. *)
Theorem export_functions_catches_Exception
    (h : host) (path : string) (w : world) (e : exn) :
  fst (export_try h path w) = Raises e ->
  let r := export_functions h path w in
  if is_Exception e
  then fst r = Returns 0
       /\ stdout (snd r) = stdout w ++ ["Export failed: " +:+ str_exn e]
  else fst r = Raises e
       /\ stdout (snd r) = stdout w.
Proof.
  intros Hraise r. subst r.
  destruct (export_try_raises h path w e Hraise) as (w1 & Hrun & Hout).
  rewrite export_functions_run, Hrun.
  destruct (is_Exception e); cbn; rewrite Hout; split; reflexivity.
Qed.

Lemma export_functions_catches_Exception_witness :
  fst (export_try full_disk_host sample_path sample_world) = Raises disk_full
  /\ fst (export_functions full_disk_host sample_path sample_world) = Returns 0
  /\ stdout (snd (export_functions full_disk_host sample_path sample_world))
     = stdout sample_world
       ++ ["Export failed: [Errno 28] No space left on device"%string].
Proof.
  split; [vm_compute; reflexivity|].
  apply (export_functions_catches_Exception
           full_disk_host sample_path sample_world disk_full).
  vm_compute; reflexivity.
Defined.

(** C2, as stated, fails: an interrupt delivered during the write of the
    second row leaves the [try] block as a [KeyboardInterrupt], which
    [except Exception] does not catch; the call raises it to its caller
    instead of returning 0, and no diagnostic is printed. *)
Lemma export_functions_interrupt_escapes :
  fst (export_try interrupted_host sample_path sample_world) = Raises user_interrupt
  /\ fst (export_functions interrupted_host sample_path sample_world)
     = Raises user_interrupt
  /\ fst (export_functions interrupted_host sample_path sample_world) <> Returns 0
  /\ stdout (snd (export_functions interrupted_host sample_path sample_world)) = [].
Proof.
  repeat split; try (vm_compute; reflexivity).
  vm_compute. discriminate.
Qed.




(** C4, as amended.  When no name the export writes (the display name of
    the binary, the names of the functions) contains a line end (line feed
    or carriage return), the text
    left by a run whose [try] block raises nothing has one data row per
    function, in the host's order: the row at position k (from 0) is the
    row of the k-th function, and the number in its index column is k+1. *)
Theorem rows_numbered_in_host_order
    (h : host) (path : string) (w : world) (c : N) :
  one_line (get_root_filename h) = true ->
  (forall ea, In ea (Functions h) -> one_line (get_name h ea) = true) ->
  fst (export_try h path w) = Returns c ->
  exists chunks : list string,
    files (snd (export_functions h path w)) !! path = Some chunks
    /\ length (data_rows (file_text chunks)) = length (Functions h)
    /\ forall (k : nat) (ea : N),
         Functions h !! k = Some ea ->
         exists l : string,
           data_rows (file_text chunks) !! k = Some l
           /\ l = "| " +:+ PyText.str_int (N.of_nat k + 1)
                  +:+ " | `0x" +:+ PyText.format_X ea
                  +:+ "` | " +:+ PyText.str_int ea
                  +:+ " | `" +:+ get_name h ea +:+ "` |"
           /\ row_index l = Some (N.of_nat k + 1).
Proof.
  intros Hbinary Hnames Hret.
  destruct (export_try_returns h path w c Hret) as (Hopen & Hblock & _ & _).
  destruct (block_outcome_returns h c Hblock) as [_ Hdisk].
  destruct (export_functions_opened h path w Hopen) as [_ Hfile].
  rewrite Hdisk in Hfile.
  exists (report h). split; [exact Hfile|].
  rewrite (data_rows_report h (conj Hbinary Hnames)). split.
  - apply row_texts_length.
  - intros k ea Hk.
    exists (row_text (N.of_nat k + 1) ea (get_name h ea)). split; [|split].
    + rewrite (row_texts_lookup h _ 1 k ea Hk).
      replace (1 + N.of_nat k) with (N.of_nat k + 1) by lia. reflexivity.
    + reflexivity.
    + apply row_text_index.
Qed.

Lemma rows_numbered_in_host_order_witness :
  one_line (get_root_filename sample_host) = true
  /\ fst (export_try sample_host sample_path sample_world) = Returns 2
  /\ exists chunks : list string,
       files (snd (export_functions sample_host sample_path sample_world))
         !! sample_path = Some chunks
       /\ length (data_rows (file_text chunks)) = length (Functions sample_host)
       /\ forall (k : nat) (ea : N),
            Functions sample_host !! k = Some ea ->
            exists l : string,
              data_rows (file_text chunks) !! k = Some l
              /\ l = "| " +:+ PyText.str_int (N.of_nat k + 1)
                     +:+ " | `0x" +:+ PyText.format_X ea
                     +:+ "` | " +:+ PyText.str_int ea
                     +:+ " | `" +:+ get_name sample_host ea +:+ "` |"
              /\ row_index l = Some (N.of_nat k + 1).
Proof.
  split; [reflexivity|]. split; [vm_compute; reflexivity|].
  apply (rows_numbered_in_host_order sample_host sample_path sample_world 2).
  - reflexivity.
  - intros ea [<-|[<-|[]]]; reflexivity.
  - vm_compute; reflexivity.
Defined.

(** C4, as stated, fails: the host lists two functions, and the name of the
    first holds a line end followed by a row that carries the index 1.  The
    run goes through, and the index column of the table reads 1, 1, 2. *)
Lemma export_repeats_forged_index :
  length (Functions repeated_index_host) = 2%nat
  /\ fst (export_try repeated_index_host sample_path sample_world) = Returns 2
  /\ exists chunks : list string,
       files (snd (export_functions repeated_index_host sample_path sample_world))
         !! sample_path = Some chunks
       /\ map row_index (data_rows (file_text chunks))
          = [Some 1; Some 1; Some 2].
Proof.
  split; [reflexivity|]. split; [vm_compute; reflexivity|].
  eexists. split; vm_compute; reflexivity.
Qed.

(** C5.  Every row has the shape
    [| index | `0xHEX` | DEC | `name` |], where HEX is the address under the
    format code [X] and DEC the address under [str]: HEX consists of digits
    and the capitals A to F and has no leading zero (it is "0" for address
    0), DEC consists of decimal digits, and HEX read in base 16 and DEC read
    in base 10 both denote the address of the row. *)
Theorem row_addresses_agree (index func_ea : N) (func_name : string) :
  exists hex dec : string,
    row_line index func_ea func_name
    = "| " +:+ PyText.str_int index +:+ " | `0x" +:+ hex +:+ "` | " +:+ dec
      +:+ " | `" +:+ func_name +:+ "` |" +:+ LF
    /\ hex = PyText.format_X func_ea
    /\ dec = PyText.str_int func_ea
    /\ PyText.all_chars PyText.is_upper_hex_digit hex = true
    /\ PyText.natural_width hex = true
    /\ PyText.value_of 16 hex = Some func_ea
    /\ PyText.all_chars PyText.is_dec_digit dec = true
    /\ PyText.natural_width dec = true
    /\ PyText.value_of 10 dec = Some func_ea.
Proof.
  exists (PyText.format_X func_ea), (PyText.str_int func_ea).
  do 3 (split; [reflexivity|]).
  unfold PyText.format_X, PyText.str_int.
  split; [|split; [|split; [|split; [|split]]]].
  - unfold PyText.render. apply to_digits_all_chars; try lia; [|reflexivity].
    intros d Hd. apply digit_is_upper_hex. exact Hd.
  - apply render_natural_width; lia.
  - apply render_value; lia.
  - unfold PyText.render. apply to_digits_all_chars; try lia; [|reflexivity].
    intros d Hd. apply digit_is_dec. exact Hd.
  - apply render_natural_width; lia.
  - apply render_value; lia.
Qed.



(** C7.  With an empty function list, a run whose [try] block raises nothing
    returns 0 and leaves at the path the heading, the timestamp line, the
    two lines of the table header and the line "Total: 0 functions", and
    nothing else. *)
Theorem export_functions_empty_list
    (h : host) (path : string) (w : world) (c : N) :
  Functions h = [] ->
  fst (export_try h path w) = Returns c ->
  fst (export_functions h path w) = Returns 0
  /\ files (snd (export_functions h path w)) !! path
     = Some [ "# Function List - " +:+ get_root_filename h +:+ LF +:+ LF;
              "Export Time: " +:+ PyText.strftime (now h) +:+ LF +:+ LF;
              "| # | Address (Hex) | Address (Dec) | Function Name |" +:+ LF;
              "|------|--------------|------------|-------|" +:+ LF;
              LF +:+ LF +:+ "Total: 0 functions" +:+ LF ].
Proof.
  intros Hnil Hret.
  destruct (export_try_returns h path w c Hret) as (Hopen & _ & Hc & Hrun).
  rewrite export_functions_run, Hrun. cbn [fst snd].
  rewrite Hnil in Hc. cbn in Hc. subst c. split; [reflexivity|].
  cbn. rewrite lookup_insert_eq. unfold report, table_rows. rewrite Hnil.
  reflexivity.
Qed.

Lemma export_functions_empty_list_witness :
  Functions empty_host = []
  /\ fst (export_try empty_host sample_path sample_world) = Returns 0
  /\ fst (export_functions empty_host sample_path sample_world) = Returns 0
  /\ files (snd (export_functions empty_host sample_path sample_world)) !! sample_path
     = Some [ "# Function List - " +:+ get_root_filename empty_host +:+ LF +:+ LF;
              "Export Time: " +:+ PyText.strftime (now empty_host) +:+ LF +:+ LF;
              "| # | Address (Hex) | Address (Dec) | Function Name |" +:+ LF;
              "|------|--------------|------------|-------|" +:+ LF;
              LF +:+ LF +:+ "Total: 0 functions" +:+ LF ].
Proof.
  split; [reflexivity|]. split; [vm_compute; reflexivity|].
  apply (export_functions_empty_list empty_host sample_path sample_world 0).
  - reflexivity.
  - vm_compute; reflexivity.
Defined.

(** C8.  When the save dialog yields no path ([None] or the empty string),
    [main] prints "Export cancelled" and does nothing else: no file is
    touched, no file object is created, no dialog is shown.  Otherwise it
    calls [export_functions] with the path; when that returns a count,
    [main] shows the information dialog exactly when the count is greater
    than 0, and when it raises, [main] passes the exception on. *)
Theorem main_reports (h : host) (w : world) :
  match truthy (ask_file h 1 "*.md" "Select path to save function list"
                         (default_filename h)) with
  | None =>
      fst (main h w) = Returns tt
      /\ stdout (snd (main h w)) = stdout w ++ ["Export cancelled"%string]
      /\ files (snd (main h w)) = files w
      /\ objects (snd (main h w)) = objects w
      /\ dialogs (snd (main h w)) = dialogs w
  | Some path =>
      let r := export_functions h path w in
      match fst r with
      | Returns count =>
          fst (main h w) = Returns tt
          /\ (0 < count ->
              snd (main h w) = informed (dialog_message count path) (snd r)
              /\ dialogs (snd (main h w))
                 = dialogs w ++ [dialog_message count path])
          /\ (count = 0 ->
              snd (main h w) = snd r /\ dialogs (snd (main h w)) = dialogs w)
      | Raises e =>
          main h w = (Raises e, snd r)
      end
  end.
Proof.
  rewrite main_run.
  destruct (truthy _) as [path|].
  - cbv zeta.
    pose proof (export_functions_keeps h path w) as [Hdlg _].
    destruct (export_functions h path w) as [[count|e] w1]; cbn [fst snd] in *;
      [|reflexivity].
    destruct (N.ltb_spec 0 count) as [Hpos|Hzero]; cbn [fst snd].
    + split; [reflexivity|]. split.
      * intros _. split; [reflexivity|]. cbn. rewrite Hdlg. reflexivity.
      * intros ->. lia.
    + split; [reflexivity|]. split.
      * intros Hpos. lia.
      * intros _. split; [reflexivity | exact Hdlg].
  - cbn. repeat split.
Qed.

Lemma main_reports_witness :
  0 < 2
  /\ fst (export_functions sample_host sample_path sample_world) = Returns 2
  /\ dialogs (snd (main sample_host sample_world))
     = dialogs sample_world ++ [dialog_message 2 sample_path].
Proof.
  split; [lia|]. split; [vm_compute; reflexivity|].
  generalize (main_reports sample_host sample_world).
  vm_compute. intros (_ & Hshown & _). apply Hshown. reflexivity.
Defined.

(** C9.  Once [open] has returned the file object, that object is closed
    when the write block is left, whatever the fault plan makes of the
    block (it may run to its end or raise at any write), and it is still
    closed when [export_functions] is left, by a return or by an
    exception. *)
Theorem output_file_closed_on_exit
    (h : host) (path : string) (w : world) (f : nat) (w1 : world) :
  open_w path w = (Returns f, w1) ->
  (exists o, objects (snd (write_report h path w)) !! f = Some o
             /\ fo_path o = path /\ fo_closed o = true)
  /\ (exists o, objects (snd (export_functions h path w)) !! f = Some o
                /\ fo_path o = path /\ fo_closed o = true).
Proof.
  intros Hopened.
  assert (Hopen : can_open path w /\ f = length (objects w)).
  { unfold open_w in Hopened. unfold can_open.
    destruct (open_refusal path w); [discriminate|].
    inversion Hopened. auto. }
  destruct Hopen as [Hopen ->].
  destruct (block_object_closed h path) as [Hpath Hclosed].
  rewrite export_functions_run, (write_report_run h path w Hopen).
  split.
  - exists (block_object h path). cbn.
    rewrite list_lookup_middle by reflexivity. auto.
  - destruct (block_outcome h) as [c|e]; [|destruct (is_Exception e)];
      exists (block_object h path); cbn;
      rewrite list_lookup_middle by reflexivity; auto.
Qed.

Lemma output_file_closed_on_exit_witness :
  fst (open_w sample_path sample_world) = Returns 0%nat
  /\ (exists o, objects (snd (write_report interrupted_host sample_path sample_world))
                  !! 0%nat = Some o
                /\ fo_path o = sample_path /\ fo_closed o = true)
  /\ (exists o, objects (snd (export_functions interrupted_host sample_path sample_world))
                  !! 0%nat = Some o
                /\ fo_path o = sample_path /\ fo_closed o = true).
Proof.
  split; [vm_compute; reflexivity|].
  apply (output_file_closed_on_exit interrupted_host sample_path sample_world 0%nat
           (snd (open_w sample_path sample_world))).
  vm_compute; reflexivity.
Defined.




(** ** Further properties of the exporter *)

Lemma file_text_take_drop (k : nat) (l : list string) :
  file_text l = file_text (take k l) +:+ file_text (drop k l).
Proof. rewrite <- file_text_app, take_drop. reflexivity. Qed.

(** What a write block leaves in the file is the beginning of the text of
    the report. *)
Lemma block_disk_prefix (h : host) :
  exists rest, file_text (report h) = file_text (block_disk h) +:+ rest.
Proof.
  unfold block_disk, block_object, on_disk.
  destruct (first_fault (write_fault h) 0 (length (report h))) as [[i e]|];
    cbn [fo_failed fo_buffer].
  - destruct (cut_prefix (disk_cut h) (file_text (take (S i) (report h))))
      as [rest Hrest].
    exists (rest +:+ file_text (drop (S i) (report h))).
    rewrite (file_text_take_drop (S i) (report h)) at 1.
    rewrite Hrest at 1. cbn [file_text fold_right].
    rewrite append_nil_r, append_assoc. reflexivity.
  - destruct (close_fault h).
    + destruct (cut_prefix (disk_cut h) (file_text (report h))) as [rest Hrest].
      exists rest. cbn [file_text fold_right]. rewrite append_nil_r. exact Hrest.
    + exists EmptyString. rewrite append_nil_r. reflexivity.
Qed.

(** X2.  When [open] has returned the file object and the [try] block then
    raises, whatever raised and wherever, the file is not restored: what it
    held before is gone and it holds a beginning of the text of the
    report, possibly empty, possibly cut in the middle of a line.  When
    the exception is an instance of [Exception], the call returns 0 all
    the same. *)
Theorem failed_export_leaves_prefix
    (h : host) (path : string) (w : world) (f : nat) (w1 : world) (e : exn) :
  open_w path w = (Returns f, w1) ->
  fst (export_try h path w) = Raises e ->
  (exists (chunks : list string) (rest : string),
     files (snd (export_functions h path w)) !! path = Some chunks
     /\ file_text (report h) = file_text chunks +:+ rest)
  /\ (is_Exception e = true -> fst (export_functions h path w) = Returns 0).
Proof.
  intros Hopened Hraise.
  assert (Hopen : can_open path w).
  { unfold open_w in Hopened. unfold can_open.
    destruct (open_refusal path w); [discriminate | reflexivity]. }
  destruct (export_functions_opened h path w Hopen) as [Hvalue Hfile].
  split.
  - destruct (block_disk_prefix h) as [rest Hrest]. eauto.
  - intros Hexc. rewrite Hvalue.
    rewrite export_try_run, (write_report_run h path w Hopen) in Hraise.
    destruct (block_outcome h) as [c|e']; cbn in Hraise; [discriminate|].
    inversion Hraise; subst e'. rewrite Hexc. reflexivity.
Qed.

Lemma failed_export_leaves_prefix_witness :
  fst (open_w sample_path sample_world) = Returns 0%nat
  /\ fst (export_try full_disk_host sample_path sample_world) = Raises disk_full
  /\ files sample_world !! sample_path = Some ["stale"%string]
  /\ (exists (chunks : list string) (rest : string),
        files (snd (export_functions full_disk_host sample_path sample_world))
          !! sample_path = Some chunks
        /\ file_text (report full_disk_host) = file_text chunks +:+ rest)
  /\ fst (export_functions full_disk_host sample_path sample_world) = Returns 0.
Proof.
  split; [vm_compute; reflexivity|]. split; [vm_compute; reflexivity|].
  split; [vm_compute; reflexivity|].
  destruct (failed_export_leaves_prefix full_disk_host sample_path sample_world
              0%nat (snd (open_w sample_path sample_world)) disk_full)
    as [Hprefix Hzero]; [vm_compute; reflexivity | vm_compute; reflexivity |].
  split; [exact Hprefix | apply Hzero; reflexivity].
Defined.

(** X4.  What [export_functions] prints tells how the run went.  When it
    returns after a complete export, exactly one line is added to the
    console, naming the count it returns and the path, and the report is at
    the path; when it returns after a caught exception, the count is 0 and
    the one line added is "Export failed: " with the exception's message;
    when it raises, nothing is printed and the exception is not an instance
    of [Exception]. *)
Theorem export_functions_console (h : host) (path : string) (w : world) :
  let r := export_functions h path w in
  match fst r with
  | Returns c =>
      (c = N.of_nat (length (Functions h))
       /\ files (snd r) !! path = Some (report h)
       /\ stdout (snd r)
          = stdout w ++ ["Successfully exported " +:+ PyText.str_int c
                         +:+ " functions to: " +:+ path])
      \/ (c = 0
          /\ exists e, is_Exception e = true
             /\ stdout (snd r) = stdout w ++ ["Export failed: " +:+ str_exn e])
  | Raises e =>
      is_Exception e = false /\ stdout (snd r) = stdout w
  end.
Proof.
  intros r. subst r. rewrite export_functions_run.
  open_cases h path w as Hopen Hrun cls Hexc; rewrite Hrun.
  - destruct (block_outcome h) as [c|e] eqn:Hblock.
    + destruct (block_outcome_returns h c Hblock) as [Hc Hdisk].
      cbn. left. split; [exact Hc|]. rewrite Hdisk.
      split; [apply lookup_insert_eq | reflexivity].
    + destruct (is_Exception e) eqn:He; cbn.
      * right. split; [reflexivity|]. exists e. auto.
      * auto.
  - rewrite Hexc. cbn. right. split; [reflexivity|]. eexists. split; [exact Hexc|].
    reflexivity.
Qed.

(** X6.  When the function list is empty and the export goes through (the
    [try] block of [export_functions] raises nothing), [main] returns
    without showing the information dialog although the file has been
    written: the console line "Successfully exported 0 functions to: ..."
    is the only sign of the export. *)
Theorem main_silent_on_empty_export
    (h : host) (w : world) (path : string) (c : N) :
  Functions h = [] ->
  truthy (ask_file h 1 "*.md" "Select path to save function list"
                   (default_filename h)) = Some path ->
  fst (export_try h path w) = Returns c ->
  fst (main h w) = Returns tt
  /\ dialogs (snd (main h w)) = dialogs w
  /\ files (snd (main h w)) !! path = Some (report h)
  /\ stdout (snd (main h w))
     = stdout w ++ ["Successfully exported 0 functions to: " +:+ path].
Proof.
  intros Hnil Hanswer Hret.
  destruct (export_try_returns h path w c Hret) as (Hopen & _ & Hc & Hrun).
  rewrite Hnil in Hc. cbn in Hc. subst c.
  rewrite main_run, Hanswer, export_functions_run, Hrun.
  lazy beta iota. change (0 <? 0) with false. lazy iota.
  split; [reflexivity|]. split; [reflexivity|]. split; [|reflexivity].
  cbn [snd files printed written set_stdout set_files set_objects set_readonly].
  apply lookup_insert_eq.
Qed.

Lemma main_silent_on_empty_export_witness :
  Functions empty_host = []
  /\ fst (export_try empty_host sample_path sample_world) = Returns 0
  /\ fst (main empty_host sample_world) = Returns tt
  /\ dialogs (snd (main empty_host sample_world)) = dialogs sample_world
  /\ files (snd (main empty_host sample_world)) !! sample_path
     = Some (report empty_host).
Proof.
  split; [reflexivity|]. split; [vm_compute; reflexivity|].
  destruct (main_silent_on_empty_export empty_host sample_world sample_path 0)
    as (Hret & Hdlg & Hfile & _);
    [reflexivity | vm_compute; reflexivity | vm_compute; reflexivity |].
  split; [exact Hret|]. split; [exact Hdlg | exact Hfile].
Defined.



(** ** Reading the table back *)

Lemma append_cancel_l (a x y : string) : a +:+ x = a +:+ y -> x = y.
Proof.
  induction a as [|c a IH]; simpl; intros Heq; [exact Heq|].
  inversion Heq. auto.
Qed.

Lemma length_append (a b : string) :
  String.length (a +:+ b) = (String.length a + String.length b)%nat.
Proof. induction a as [|c a IH]; simpl; [reflexivity | rewrite IH; reflexivity]. Qed.

Lemma append_cancel_r (t : string) : forall x y : string,
  x +:+ t = y +:+ t -> x = y.
Proof.
  induction x as [|c x IH]; intros [|d y] Heq; simpl in Heq.
  - reflexivity.
  - apply (f_equal String.length) in Heq.
    rewrite ?length_append in Heq. simpl in Heq. rewrite ?length_append in Heq. lia.
  - apply (f_equal String.length) in Heq.
    rewrite ?length_append in Heq. simpl in Heq. rewrite ?length_append in Heq. lia.
  - inversion Heq; subst. f_equal. apply IH. assumption.
Qed.

(** Two texts that start with a run of characters of one class, closed by a
    character outside the class, agree on the run and on what follows. *)
Lemma run_unique (p : ascii -> bool) (c c' : ascii) (r r' : string) :
  p c = false -> p c' = false ->
  forall a a' : string,
    PyText.all_chars p a = true -> PyText.all_chars p a' = true ->
    a +:+ String c r = a' +:+ String c' r' ->
    a = a' /\ String c r = String c' r'.
Proof.
  intros Hc Hc'.
  induction a as [|x a IH]; intros [|x' a'] Ha Ha' Heq; simpl in *.
  - auto.
  - inversion Heq; subst. apply andb_prop in Ha'. destruct Ha'. congruence.
  - inversion Heq; subst. apply andb_prop in Ha. destruct Ha. congruence.
  - inversion Heq; subst.
    apply andb_prop in Ha. apply andb_prop in Ha'.
    destruct (IH a' (proj2 Ha) (proj2 Ha') H1) as [-> Hrest].
    auto.
Qed.

Lemma str_int_inj (n m : N) : PyText.str_int n = PyText.str_int m -> n = m.
Proof.
  intros Heq. apply (f_equal (PyText.value_of 10)) in Heq.
  unfold PyText.str_int in Heq. rewrite !render_value in Heq by lia. congruence.
Qed.

Lemma format_X_inj (n m : N) : PyText.format_X n = PyText.format_X m -> n = m.
Proof.
  intros Heq. apply (f_equal (PyText.value_of 16)) in Heq.
  unfold PyText.format_X in Heq. rewrite !render_value in Heq by lia. congruence.
Qed.

(** The text of a row determines its index, its address and its name,
    whatever characters the name is made of. *)
Lemma row_text_inj (i i' ea ea' : N) (nm nm' : string) :
  row_text i ea nm = row_text i' ea' nm' -> i = i' /\ ea = ea' /\ nm = nm'.
Proof.
  unfold row_text. intros Heq.
  change (String "|" (String " " (PyText.str_int i +:+ String " "
            ("| `0x" +:+ PyText.format_X ea +:+ "` | " +:+ PyText.str_int ea
             +:+ " | `" +:+ nm +:+ "` |")))
          = String "|" (String " " (PyText.str_int i' +:+ String " "
            ("| `0x" +:+ PyText.format_X ea' +:+ "` | " +:+ PyText.str_int ea'
             +:+ " | `" +:+ nm' +:+ "` |")))) in Heq.
  injection Heq as Heq.
  apply (run_unique PyText.is_dec_digit) in Heq;
    [|reflexivity|reflexivity|apply str_int_digits|apply str_int_digits].
  destruct Heq as [Hi Heq]. apply str_int_inj in Hi. subst i'.
  change (String " " (String "|" (String " " (String "`" (String "0" (String "x"
            (PyText.format_X ea +:+ String "`"
               (" | " +:+ PyText.str_int ea +:+ " | `" +:+ nm +:+ "` |")))))))
          = String " " (String "|" (String " " (String "`" (String "0" (String "x"
            (PyText.format_X ea' +:+ String "`"
               (" | " +:+ PyText.str_int ea' +:+ " | `" +:+ nm' +:+ "` |"))))))))
    in Heq.
  injection Heq as Heq.
  apply (run_unique PyText.is_upper_hex_digit) in Heq;
    [|reflexivity|reflexivity|apply format_X_digits|apply format_X_digits].
  destruct Heq as [Hea Heq]. apply format_X_inj in Hea. subst ea'.
  change (String "`" (String " " (String "|" (String " "
            (PyText.str_int ea +:+ (" | `" +:+ (nm +:+ "` |"))))))
          = String "`" (String " " (String "|" (String " "
            (PyText.str_int ea +:+ (" | `" +:+ (nm' +:+ "` |")))))))
    in Heq.
  injection Heq as Heq.
  apply append_cancel_l in Heq.
  apply (append_cancel_l " | `") in Heq.
  apply append_cancel_r in Heq.
  auto.
Qed.

Lemma row_texts_inj (h1 h2 : host) (items1 : list N) :
  forall (items2 : list N) (start : N),
    row_texts h1 items1 start = row_texts h2 items2 start ->
    items1 = items2
    /\ forall ea, In ea items1 -> get_name h1 ea = get_name h2 ea.
Proof.
  induction items1 as [|ea1 rest1 IH]; intros [|ea2 rest2] start Heq;
    try discriminate.
  - split; [reflexivity | intros ea []].
  - cbn [row_texts enumerate map fst snd] in Heq.
    pose proof (f_equal (hd EmptyString) Heq) as Hrow.
    pose proof (f_equal (@tl string) Heq) as Hrest.
    cbn [hd tl] in Hrow, Hrest.
    apply row_text_inj in Hrow. destruct Hrow as (_ & -> & Hname).
    destruct (IH rest2 (start + 1) Hrest) as [-> Hnames].
    split; [reflexivity|].
    intros ea [<-|Hin]; [exact Hname | apply Hnames; exact Hin].
Qed.

(** X9.  The written text loses nothing: when no name the export writes
    contains a line end (line feed or carriage return), two hosts whose complete exports have the same
    text list the same functions, in the same order, and give every listed
    function the same name. *)
Theorem export_text_determines_functions (h1 h2 : host) :
  names_on_one_line h1 ->
  names_on_one_line h2 ->
  file_text (report h1) = file_text (report h2) ->
  Functions h1 = Functions h2
  /\ forall ea, In ea (Functions h1) -> get_name h1 ea = get_name h2 ea.
Proof.
  intros Hnames1 Hnames2 Htext.
  apply (f_equal data_rows) in Htext.
  rewrite (data_rows_report h1 Hnames1), (data_rows_report h2 Hnames2) in Htext.
  exact (row_texts_inj h1 h2 (Functions h1) (Functions h2) 1 Htext).
Qed.

Lemma export_text_determines_functions_witness :
  file_text (report sample_host) = file_text (report renamed_host)
  /\ get_name sample_host 0 <> get_name renamed_host 0
  /\ Functions sample_host = Functions renamed_host
  /\ forall ea, In ea (Functions sample_host) ->
                get_name sample_host ea = get_name renamed_host ea.
Proof.
  assert (Htext : file_text (report sample_host) = file_text (report renamed_host))
    by (vm_compute; reflexivity).
  split; [exact Htext|]. split; [vm_compute; discriminate|].
  apply (export_text_determines_functions sample_host renamed_host);
    [| |exact Htext];
    (split; [reflexivity | intros ea [<-|[<-|[]]]; reflexivity]).
Defined.

(** ** The default path offered by the save dialog *)

Section Paths.

Import os_path.

Lemma drop_while_app_all (p : ascii -> bool) (a b : list ascii) :
  forallb p a = true -> drop_while p (a ++ b) = drop_while p b.
Proof.
  induction a as [|c a IH]; cbn [forallb app drop_while]; [reflexivity|].
  intros Hall. apply andb_prop in Hall. destruct Hall as [-> Ha]. apply IH. exact Ha.
Qed.

Lemma drop_while_stops (p : ascii -> bool) (l : list ascii) :
  (drop_while p l = [] /\ forallb p l = true)
  \/ exists c t, drop_while p l = c :: t /\ p c = false.
Proof.
  induction l as [|c l IH]; cbn [drop_while forallb]; [auto|].
  destruct (p c) eqn:Hc; [exact IH | right; eauto].
Qed.

Lemma forallb_rev (p : ascii -> bool) (l : list ascii) :
  forallb p (rev l) = forallb p l.
Proof.
  induction l as [|c l IH]; [reflexivity|].
  cbn [rev forallb]. rewrite forallb_app, IH. cbn [forallb].
  rewrite andb_true_r. apply andb_comm.
Qed.

Lemma list_of_append (a b : string) :
  list_ascii_of_string (a +:+ b) = list_ascii_of_string a ++ list_ascii_of_string b.
Proof.
  induction a as [|c a IH]; simpl; [reflexivity | rewrite IH; reflexivity].
Qed.

(** What [dirname] returns consists of separators only (it may be empty) or
    ends with a character that is not a separator. *)
Lemma dirname_shape (p : string) :
  forallb is_sep (list_ascii_of_string (dirname p)) = true
  \/ exists l c, list_ascii_of_string (dirname p) = l ++ [c] /\ is_sep c = false.
Proof.
  unfold dirname.
  destruct (forallb is_sep (upto_last_sep (list_ascii_of_string p))) eqn:Hall;
    rewrite list_ascii_of_string_of_list_ascii.
  - left. exact Hall.
  - right. unfold rstrip_sep.
    destruct (drop_while_stops is_sep (rev (upto_last_sep (list_ascii_of_string p))))
      as [[_ Hseps]|(c & t & Hdrop & Hc)].
    + rewrite forallb_rev in Hseps. congruence.
    + rewrite Hdrop. exists (rev t), c. split; [reflexivity | exact Hc].
Qed.

(** Joining a bare file name to a directory name of that shape and taking
    the directory again gives the directory back. *)
Lemma dirname_join (d f : string) :
  no_sep f = true ->
  (forallb is_sep (list_ascii_of_string d) = true
   \/ exists l c, list_ascii_of_string d = l ++ [c] /\ is_sep c = false) ->
  dirname (join d f) = d.
Proof.
  intros Hf Hshape. unfold no_sep in Hf.
  assert (Hrevf : forallb (fun c => negb (is_sep c)) (rev (list_ascii_of_string f)) = true)
    by (rewrite forallb_rev; exact Hf).
  assert (Hstart : starts_with_sep f = false).
  { destruct f as [|c f]; [reflexivity|]. cbn in Hf. cbn.
    apply andb_prop in Hf. destruct Hf as [Hc _]. apply negb_true_iff. exact Hc. }
  unfold join. rewrite Hstart.
  pose proof (string_of_list_ascii_of_string d) as Hd.
  remember (list_ascii_of_string d) as D eqn:HeqD.
  destruct (rev D) as [|c t] eqn:Hrev.
  - (* no directory part *)
    apply (f_equal (@rev ascii)) in Hrev. rewrite rev_involutive in Hrev.
    cbn [rev] in Hrev. rewrite Hrev in Hd. cbn [string_of_list_ascii] in Hd.
    clear HeqD Hrev. subst d.
    cbn [String.eqb orb]. change (EmptyString +:+ f) with f.
    unfold dirname, upto_last_sep.
    rewrite <- (app_nil_r (rev (list_ascii_of_string f))).
    rewrite (drop_while_app_all _ _ [] Hrevf). reflexivity.
  - assert (HD : D = rev t ++ [c]).
    { apply (f_equal (@rev ascii)) in Hrev. rewrite rev_involutive in Hrev.
      exact Hrev. }
    assert (Hne : String.eqb d EmptyString = false).
    { rewrite <- Hd, HD. destruct (rev t); reflexivity. }
    rewrite Hne. cbn [orb]. unfold ends_with_sep. rewrite <- HeqD, Hrev.
    destruct (is_sep c) eqn:Hc.
    + (* the directory ends with a separator: it is made of separators *)
      unfold dirname, upto_last_sep. rewrite list_of_append, <- HeqD.
      rewrite rev_app_distr, (drop_while_app_all _ _ _ Hrevf), Hrev.
      cbn [drop_while]. rewrite Hc. cbn [negb]. rewrite <- Hrev, rev_involutive.
      destruct Hshape as [Hseps|(l & c' & Hl & Hc')].
      * rewrite Hseps. exact Hd.
      * rewrite Hl in HD. apply app_inj_tail in HD. destruct HD as [_ ->]. congruence.
    + (* the directory ends with another character: a separator is added *)
      unfold dirname, upto_last_sep. rewrite !list_of_append, <- HeqD.
      change (list_ascii_of_string "/") with ["/"%char].
      rewrite !rev_app_distr, <- app_assoc.
      rewrite (drop_while_app_all _ _ _ Hrevf).
      change (rev ["/"%char] ++ rev D) with ("/"%char :: rev D).
      cbn [drop_while]. change (negb (is_sep "/")) with false. cbv iota.
      change (rev ("/"%char :: rev D)) with (rev (rev D) ++ ["/"%char]).
      rewrite rev_involutive.
      assert (Hnot : forallb is_sep (D ++ ["/"%char]) = false).
      { rewrite HD, !forallb_app. cbn [forallb]. rewrite Hc.
        rewrite andb_false_r. reflexivity. }
      rewrite Hnot. unfold rstrip_sep. rewrite rev_app_distr.
      change (rev ["/"%char] ++ rev D) with ("/"%char :: rev D).
      cbn [drop_while]. change (is_sep "/") with true. cbv iota.
      rewrite Hrev. cbn [drop_while]. rewrite Hc.
      rewrite <- Hrev, rev_involutive. exact Hd.
Qed.

(** A name that does not start with a separator is kept at the end of the
    joined path. *)
Lemma join_suffix (d f : string) :
  starts_with_sep f = false -> exists prefix : string, join d f = prefix +:+ f.
Proof.
  intros Hstart. unfold join. rewrite Hstart.
  destruct (String.eqb d EmptyString || ends_with_sep d).
  - exists d. reflexivity.
  - exists (d +:+ "/"). clear Hstart.
    induction d as [|c d IH]; [reflexivity | exact (f_equal (String c) IH)].
Qed.

End Paths.

(** X10.  The path offered by the save dialog always ends in
    [exported_functions.md], and when the host knows the path of the input
    file, the offered path lies in the directory of that file: taking its
    directory gives the directory of the input file again, whatever the
    input path looks like. *)
Theorem default_filename_beside_input (h : host) :
  (exists prefix : string,
     default_filename h = prefix +:+ "exported_functions.md")
  /\ (forall input : string,
        get_input_file_path h = Returns input ->
        os_path.dirname (default_filename h) = os_path.dirname input).
Proof.
  split.
  - unfold default_filename.
    destruct (get_input_file_path h) as [input|e]; apply join_suffix; reflexivity.
  - intros input Hinput. unfold default_filename. rewrite Hinput.
    apply dirname_join; [reflexivity | apply dirname_shape].
Qed.

Lemma default_filename_beside_input_witness :
  get_input_file_path sample_host = Returns "/home/u/a.out"%string
  /\ os_path.dirname (default_filename sample_host)
     = os_path.dirname "/home/u/a.out".
Proof.
  assert (Hinput : get_input_file_path sample_host = Returns "/home/u/a.out"%string)
    by reflexivity.
  split; [exact Hinput|].
  exact (proj2 (default_filename_beside_input sample_host) "/home/u/a.out"%string Hinput).
Defined.

(** ** The timestamp *)

Lemma below_forallb (p : N -> bool) (bound : N) :
  forallb p (map N.of_nat (seq 0 (N.to_nat bound))) = true ->
  forall n : N, n < bound -> p n = true.
Proof.
  intros Hall n Hn.
  rewrite forallb_forall in Hall. apply Hall.
  rewrite <- (N2Nat.id n). apply in_map. apply in_seq. lia.
Qed.

Lemma pad2_field (n : N) : n < 100 -> field_ok 2 (PyText.pad2 n) n = true.
Proof.
  apply (below_forallb (fun n => field_ok 2 (PyText.pad2 n) n) 100).
  vm_compute. reflexivity.
Qed.

Lemma year_field (n : N) :
  1000 <= n < 10000 -> field_ok 4 (PyText.str_int n) n = true.
Proof.
  intros [Hlo Hhi].
  pose proof (below_forallb
                (fun n => (n <? 1000) || field_ok 4 (PyText.str_int n) n) 10000
                ltac:(vm_compute; reflexivity) n Hhi) as Hok.
  cbv beta in Hok. apply orb_prop in Hok. destruct Hok as [Hsmall|Hok]; [|exact Hok].
  apply N.ltb_lt in Hsmall. lia.
Qed.

Lemma field_ok_length (width : nat) (text : string) (n : N) :
  field_ok width text n = true -> String.length text = width.
Proof.
  unfold field_ok. intros Hok.
  apply andb_prop in Hok. destruct Hok as [Hok _].
  apply andb_prop in Hok. destruct Hok as [Hlen _].
  apply Nat.eqb_eq. exact Hlen.
Qed.

(** X11.  For every clock reading from the year 1000 on, the timestamp
    written to the file has the shape YYYY-MM-DD HH:MM:SS: nineteen
    characters, a year of four digits and month, day, hour, minute and
    second of two digits each, zero-padded, each denoting the
    corresponding field of the clock reading. *)
Theorem timestamp_shape (t : PyText.datetime) :
  four_digit_year t ->
  String.length (PyText.strftime t) = 19%nat
  /\ exists Y M D h m s : string,
       PyText.strftime t
       = Y +:+ "-" +:+ M +:+ "-" +:+ D +:+ " " +:+ h +:+ ":" +:+ m +:+ ":" +:+ s
       /\ field_ok 4 Y (PyText.year t) = true
       /\ field_ok 2 M (PyText.month t) = true
       /\ field_ok 2 D (PyText.day t) = true
       /\ field_ok 2 h (PyText.hour t) = true
       /\ field_ok 2 m (PyText.minute t) = true
       /\ field_ok 2 s (PyText.second t) = true.
Proof.
  intros (Hy & Hmo & Hd & Hh & Hmi & Hs).
  assert (HY := year_field (PyText.year t) ltac:(lia)).
  assert (HM := pad2_field (PyText.month t) ltac:(lia)).
  assert (HD := pad2_field (PyText.day t) ltac:(lia)).
  assert (Hh' := pad2_field (PyText.hour t) ltac:(lia)).
  assert (Hm' := pad2_field (PyText.minute t) ltac:(lia)).
  assert (Hs' := pad2_field (PyText.second t) ltac:(lia)).
  split.
  - unfold PyText.strftime. rewrite !length_append.
    rewrite (field_ok_length _ _ _ HY), (field_ok_length _ _ _ HM),
      (field_ok_length _ _ _ HD), (field_ok_length _ _ _ Hh'),
      (field_ok_length _ _ _ Hm'), (field_ok_length _ _ _ Hs').
    reflexivity.
  - exists (PyText.str_int (PyText.year t)), (PyText.pad2 (PyText.month t)),
      (PyText.pad2 (PyText.day t)), (PyText.pad2 (PyText.hour t)),
      (PyText.pad2 (PyText.minute t)), (PyText.pad2 (PyText.second t)).
    split; [reflexivity|]. auto 10.
Qed.

Lemma timestamp_shape_witness :
  four_digit_year (now sample_host)
  /\ String.length (PyText.strftime (now sample_host)) = 19%nat.
Proof.
  assert (Hrange : four_digit_year (now sample_host)).
  { unfold four_digit_year. cbn. lia. }
  split; [exact Hrange|].
  exact (proj1 (timestamp_shape (now sample_host) Hrange)).
Defined.

(** ** The width of the address columns *)

Lemma to_digits_length (base : N) (fuel : nat) :
  1 < base ->
  forall (k : nat) (n : N) (acc : string),
    (1 <= k)%nat -> n < base ^ N.of_nat k ->
    (String.length (PyText.to_digits base fuel n acc) <= k + String.length acc)%nat.
Proof.
  intros Hbase.
  induction fuel as [|fuel IH]; intros k n acc Hk Hn; cbn [PyText.to_digits].
  - cbn [String.length]. lia.
  - destruct (N.eqb_spec (n / base) 0) as [Hq|Hq].
    + cbn [String.length]. lia.
    + destruct k as [|[|k]]; [lia| |].
      * exfalso. apply Hq. apply N.div_small.
        change (N.of_nat 1) with 1 in Hn. rewrite N.pow_1_r in Hn. exact Hn.
      * specialize (IH (S k) (n / base)
                       (String (PyText.digit_to_ascii (n mod base)) acc)).
        cbn [String.length] in IH.
        assert (Hdiv : n / base < base ^ N.of_nat (S k)).
        { apply N.Div0.div_lt_upper_bound.
          replace (N.of_nat (S (S k))) with (N.succ (N.of_nat (S k))) in Hn by lia.
          rewrite N.pow_succ_r' in Hn. exact Hn. }
        specialize (IH ltac:(lia) Hdiv). lia.
Qed.

(** X12.  For an address that fits in 64 bits, the hexadecimal column of a
    row has at most 16 digits and the decimal column at most 20. *)
Theorem address_columns_width (func_ea : N) :
  func_ea < 2 ^ 64 ->
  (String.length (PyText.format_X func_ea) <= 16)%nat
  /\ (String.length (PyText.str_int func_ea) <= 20)%nat.
Proof.
  intros Hea. split.
  - unfold PyText.format_X, PyText.render.
    pose proof (to_digits_length 16 (N.to_nat (N.log2 func_ea)) ltac:(lia)
                  16%nat func_ea EmptyString ltac:(lia)) as Hlen.
    cbn [String.length] in Hlen. rewrite Nat.add_0_r in Hlen. apply Hlen.
    change (16 ^ N.of_nat 16) with (2 ^ 64). exact Hea.
  - unfold PyText.str_int, PyText.render.
    pose proof (to_digits_length 10 (N.to_nat (N.log2 func_ea)) ltac:(lia)
                  20%nat func_ea EmptyString ltac:(lia)) as Hlen.
    cbn [String.length] in Hlen. rewrite Nat.add_0_r in Hlen. apply Hlen.
    eapply N.lt_le_trans; [exact Hea|]. vm_compute. discriminate.
Qed.

Lemma address_columns_width_witness :
  18446744073709551615 < 2 ^ 64
  /\ (String.length (PyText.format_X 18446744073709551615) <= 16)%nat
  /\ (String.length (PyText.str_int 18446744073709551615) <= 20)%nat.
Proof.
  assert (Hea : 18446744073709551615 < 2 ^ 64) by (vm_compute; reflexivity).
  split; [exact Hea|].
  exact (address_columns_width 18446744073709551615 Hea).
Defined.

(** ** The specification's examples, run *)

Example str_int_4096 : PyText.str_int 4096 = "4096"%string.
Proof. reflexivity. Qed.

Example format_X_8208 : PyText.format_X 8208 = "2010"%string.
Proof. reflexivity. Qed.

Example format_X_capitals : PyText.format_X 48879 = "BEEF"%string.
Proof. reflexivity. Qed.

Example strftime_sample :
  PyText.strftime (PyText.mk_datetime 2024 3 9 7 5 0) = "2024-03-09 07:05:00"%string.
Proof. reflexivity. Qed.

Example dirname_absolute : os_path.dirname "/home/u/a.out" = "/home/u"%string.
Proof. reflexivity. Qed.

Example dirname_of_root_entry : os_path.dirname "/a.out" = "/"%string.
Proof. reflexivity. Qed.

Example dirname_relative : os_path.dirname "a.out" = EmptyString.
Proof. reflexivity. Qed.

Example join_directory :
  os_path.join "/home/u" "exported_functions.md" = "/home/u/exported_functions.md"%string.
Proof. reflexivity. Qed.

Example join_empty : os_path.join EmptyString "e.md" = "e.md"%string.
Proof. reflexivity. Qed.

Example sample_rows :
  table_rows sample_host
  = [ "| 1 | `0x1000` | 4096 | `main` |" +:+ LF;
      "| 2 | `0x2010` | 8208 | `sub_2010` |" +:+ LF ].
Proof. reflexivity. Qed.

Example sample_export :
  fst (export_functions sample_host sample_path sample_world) = Returns 2
  /\ file_text <$> files (snd (export_functions sample_host sample_path sample_world))
       !! sample_path
     = Some ("# Function List - a.out" +:+ LF +:+ LF
             +:+ "Export Time: 2024-03-09 07:05:00" +:+ LF +:+ LF
             +:+ "| # | Address (Hex) | Address (Dec) | Function Name |" +:+ LF
             +:+ "|------|--------------|------------|-------|" +:+ LF
             +:+ "| 1 | `0x1000` | 4096 | `main` |" +:+ LF
             +:+ "| 2 | `0x2010` | 8208 | `sub_2010` |" +:+ LF
             +:+ LF +:+ LF +:+ "Total: 2 functions" +:+ LF).
Proof. split; vm_compute; reflexivity. Qed.

Example sample_main_cancelled :
  main cancelling_host sample_world
  = (Returns tt, printed "Export cancelled" sample_world).
Proof. vm_compute; reflexivity. Qed.

Example sample_main_dialog :
  dialogs (snd (main sample_host sample_world))
  = [ "Successfully exported 2 functions to:" +:+ LF
      +:+ "/home/u/exported_functions.md" ].
Proof. vm_compute; reflexivity. Qed.

Example sample_main_empty :
  fst (main empty_host sample_world) = Returns tt
  /\ dialogs (snd (main empty_host sample_world)) = [].
Proof. split; vm_compute; reflexivity. Qed.

(** A full disk met at the second row: the call returns 0 and, with
    nothing flushed before, the file is left empty. *)
Example sample_disk_full :
  fst (export_functions full_disk_host sample_path sample_world) = Returns 0
  /\ file_text <$> files (snd (export_functions full_disk_host sample_path sample_world))
       !! sample_path = Some EmptyString.
Proof. split; vm_compute; reflexivity. Qed.

(** A close that cannot flush: its exception is the one that is caught,
    the call returns 0 and the file holds the bytes that reached the
    disk. *)
Example sample_close_fails :
  fst (export_functions (with_close_fault sample_host disk_full 25)
         sample_path sample_world) = Returns 0
  /\ file_text <$> files (snd (export_functions (with_close_fault sample_host disk_full 25)
                                 sample_path sample_world)) !! sample_path
     = Some ("# Function List - a.out" +:+ LF +:+ LF)
  /\ stdout (snd (export_functions (with_close_fault sample_host disk_full 25)
                    sample_path sample_world))
     = ["Export failed: [Errno 28] No space left on device"%string].
Proof. repeat split; vm_compute; reflexivity. Qed.

(** The refusals of [open]: a missing directory, a directory that accepts
    no new entry, a path that names a directory. *)
Example sample_refusals :
  open_refusal "/nowhere/out.md" sample_world = Some FileNotFoundError
  /\ open_refusal "/srv/out.md" sample_world = Some PermissionError
  /\ open_refusal "/home/u" (set_files ∅ (mk_world {[ "/home/u"%string := true;
                                                       "/home"%string := true ]}
                                             ∅ [] [] [] ∅ sample_message))
     = Some IsADirectoryError
  /\ open_refusal sample_path (set_readonly {[ sample_path ]} sample_world)
     = Some PermissionError
  /\ open_refusal "/srv/functions.md" served_world = None.
Proof. repeat split; vm_compute; reflexivity. Qed.

Example sample_lines :
  lines ("a" +:+ LF +:+ LF +:+ "b" +:+ String (ascii_of_N 13) LF
         +:+ "c" +:+ String (ascii_of_N 13) "d")
  = ["a"%string; EmptyString; "b"%string; "c"%string; "d"%string].
Proof. reflexivity. Qed.
